(** * Binary-option replication of polyarb ([src/replication.py])

    A shallow embedding of [replicate_binary_option] (strike selection,
    weights, result dictionary) and of the computational part of
    [plot_binary_replication_payoff] (note parsing, price grid, ideal and
    replicated payoff arrays that are handed to matplotlib).

    Modelling choices:
    - a Python / numpy float is modelled by its exact value, a rational
      [Q]; numpy's non-finite results ([inf], [-inf], [nan]) are kept by
      the type [f64] below, so that a division by zero gives what numpy
      gives instead of an arbitrary rational.  Signed zeros are not kept
      (a zero is [+0.0]).
    - a pandas DataFrame of instruments is a list of [row]s;
    - Python strings are [string]s, a Python dict is an association list;
    - the exceptions of the code are the values of [error]; the spec's
      [NoSuitableStrikesError] and [InvalidOptionClassError] are the two
      [ValueError]s raised with the two messages of the code, and the
      failure on a result dictionary with missing fields is Python's
      [KeyError].

    The helpers of [src/utils.py] and the API client of
    [src/data_fetcher.py] follow: JSON values, the filters and the
    DataFrame conversion, the flattening of tickers, and the requests, as a
    trace of events over the answers of the server.  The timestamp
    conversion of [src/utils.py] is the one place where float rounding is
    modelled: binary64 rounding to nearest, ties to even. *)

From Stdlib Require Import NArith ZArith QArith Qround Qabs Lia Lqa List String Ascii Bool.
From Stdlib Require Import Sorting.Sorted Sorting.Permutation.
Import ListNotations.

Open Scope string_scope.

(** ** numpy float64 values *)

Inductive f64 : Type :=
| Fin (q : Q)
| PInf
| NInf
| NaN.

(** sign of a non-NaN value *)
Definition f_sgn (x : f64) : Z :=
  match x with
  | Fin q => Z.sgn (Qnum q)
  | PInf => 1%Z
  | NInf => (-1)%Z
  | NaN => 0%Z
  end.

Definition inf_of_sign (s : Z) : f64 :=
  match s with
  | Z0 => NaN
  | Zpos _ => PInf
  | Zneg _ => NInf
  end.

Definition f_add (x y : f64) : f64 :=
  match x, y with
  | NaN, _ | _, NaN => NaN
  | Fin a, Fin b => Fin (a + b)
  | PInf, NInf | NInf, PInf => NaN
  | PInf, _ | _, PInf => PInf
  | NInf, _ | _, NInf => NInf
  end.

Definition f_neg (x : f64) : f64 :=
  match x with
  | Fin q => Fin (- q)
  | PInf => NInf
  | NInf => PInf
  | NaN => NaN
  end.

Definition f_sub (x y : f64) : f64 := f_add x (f_neg y).

Definition f_mul (x y : f64) : f64 :=
  match x, y with
  | NaN, _ | _, NaN => NaN
  | Fin a, Fin b => Fin (a * b)
  | _, _ => inf_of_sign (f_sgn x * f_sgn y)
  end.

(** true division; a finite non-zero value over [+0.0] is an infinity,
    [0/0] and [inf/inf] are [nan] *)
Definition f_div (x y : f64) : f64 :=
  match x, y with
  | NaN, _ | _, NaN => NaN
  | Fin a, Fin b =>
      if Qeq_bool b 0 then inf_of_sign (Z.sgn (Qnum a)) else Fin (a / b)
  | Fin _, _ => Fin 0
  | _, Fin b => if Qeq_bool b 0 then x else inf_of_sign (f_sgn x * f_sgn y)
  | _, _ => NaN
  end.

Definition f_le (x y : f64) : bool :=
  match x, y with
  | NaN, _ | _, NaN => false
  | NInf, _ | _, PInf => true
  | PInf, _ | _, NInf => false
  | Fin a, Fin b => Qle_bool a b
  end.

(** [np.maximum]: propagates [nan] *)
Definition f_max (x y : f64) : f64 :=
  match x, y with
  | NaN, _ | _, NaN => NaN
  | _, _ => if f_le x y then y else x
  end.

(** equality of values (rationals up to [Qeq]) *)
Definition f_eqb (x y : f64) : bool :=
  match x, y with
  | Fin a, Fin b => Qeq_bool a b
  | PInf, PInf | NInf, NInf | NaN, NaN => true
  | _, _ => false
  end.

(** ** Exceptions and the error monad *)

Inductive error : Type :=
| ValueError (msg : string)
| KeyError (key : string)
| TypeError
| IndexError.

Definition NoSuitableStrikesError : error :=
  ValueError "No suitable strikes found for replication.".
Definition InvalidOptionClassError : error :=
  ValueError "Option type must be 'call' or 'put'.".

Inductive result (A : Type) : Type :=
| Ok (a : A)
| Err (e : error).
Arguments Ok {A} a.
Arguments Err {A} e.

Notation "x <- m ;; k" :=
  (match m with Ok x => k | Err e => Err e end)
  (at level 61, m at next level, right associativity).

(** ** The instrument table *)

(** one DataFrame row; the fields are the columns the code reads *)
Record row : Type := mkRow {
  option_type : string;
  strike : Q;
  expiration_timestamp : Z;
  instrument_name : string;
  last_price : f64
}.

(** [Series.unique()]: the distinct values, in order of first appearance *)
Fixpoint pd_unique_aux (seen : list Q) (l : list Q) : list Q :=
  match l with
  | [] => []
  | x :: r =>
      if existsb (Qeq_bool x) seen then pd_unique_aux seen r
      else x :: pd_unique_aux (x :: seen) r
  end.

Definition pd_unique (l : list Q) : list Q := pd_unique_aux [] l.

(** [np.sort] (an insertion sort; on distinct values every sorting
    algorithm returns the same array) *)
Fixpoint insert_sorted (x : Q) (l : list Q) : list Q :=
  match l with
  | [] => [x]
  | y :: r => if Qle_bool x y then x :: y :: r else y :: insert_sorted x r
  end.

Fixpoint np_sort (l : list Q) : list Q :=
  match l with
  | [] => []
  | x :: r => insert_sorted x (np_sort r)
  end.

(** [np.searchsorted(a, v, side='left')] on a sorted array: the first
    index [i] with [v <= a[i]] *)
Fixpoint searchsorted_left (a : list Q) (v : Q) : nat :=
  match a with
  | [] => O
  | x :: r => if Qle_bool v x then O else S (searchsorted_left r v)
  end.

(** [np.searchsorted(a, v, side='right')] on a sorted array: the first
    index [i] with [v < a[i]] *)
Fixpoint searchsorted_right (a : list Q) (v : Q) : nat :=
  match a with
  | [] => O
  | x :: r => if negb (Qle_bool x v) then O else S (searchsorted_right r v)
  end.

(** [np.sort(df['strike'].unique())] *)
Definition sorted_strikes (df : list row) : list Q :=
  np_sort (pd_unique (map strike df)).

(** [df_expiry[df_expiry['option_type'] == cls]] after the expiration filter *)
Definition df_subset (df : list row) (expiry_timestamp : Z) (cls : string)
  : list row :=
  let df_expiry :=
    filter (fun r => Z.eqb r.(expiration_timestamp) expiry_timestamp) df in
  filter (fun r => String.eqb r.(option_type) cls) df_expiry.

(** ** [str] of a float, as used by the f-string of the note *)

Definition digit_char (d : N) : ascii := ascii_of_N (48 + d).

(** the [w] lowest decimal digits of [x], zero-padded *)
Fixpoint pad_digits (w : nat) (x : N) : string :=
  match w with
  | O => EmptyString
  | S w' => pad_digits w' (x / 10)%N ++ String (digit_char (x mod 10)%N) EmptyString
  end.

Fixpoint ndigits_fuel (fuel : nat) (x : N) : nat :=
  match fuel with
  | O => 1
  | S f => if (x <? 10)%N then 1 else S (ndigits_fuel f (x / 10)%N)
  end.

(** number of decimal digits of [x] ([1] for [0]) *)
Definition ndigits (x : N) : nat := ndigits_fuel (N.to_nat (N.size x)) x.

(** decimal notation of a natural number *)
Definition str_N (x : N) : string := pad_digits (ndigits x) x.

Fixpoint dec_search (n d : Z) (k fuel : nat) : option (Z * nat) :=
  match fuel with
  | O => None
  | S f =>
      if Z.eqb ((n * 10 ^ Z.of_nat k) mod d) 0
      then Some ((n * 10 ^ Z.of_nat k) / d, k)%Z
      else dec_search n d (S k) f
  end.

(** [q = m / 10^k] with [k] minimal.  The value of a float is a binary
    fraction, hence always has such an expansion; [None] only for
    rationals that are not values of floats. *)
Definition dec_expansion (q : Q) : option (Z * nat) :=
  let r := Qred q in
  dec_search (Qnum r) (Zpos (Qden r)) 0 (S (Pos.size_nat (Qden r))).

(** fixed-point notation of [m / 10^k]: [repr] writes at least one digit
    after the point *)
Definition fixed_repr (m : N) (k : nat) : string :=
  let p := (10 ^ N.of_nat k)%N in
  str_N (m / p)%N ++ "." ++
  match k with O => "0" | S _ => pad_digits k (m mod p)%N end.

Fixpoint rstrip0 (s : string) : string :=
  match s with
  | EmptyString => EmptyString
  | String c r =>
      let r' := rstrip0 r in
      if String.eqb r' "" && Ascii.eqb c "0"%char then "" else String c r'
  end.

(** exponent notation of [m / 10^k], as [repr] writes it ([1e+16],
    [1.5e-05]) *)
Definition sci_repr (m : N) (k : nat) : string :=
  let e := (Z.of_nat (ndigits m) - 1 - Z.of_nat k)%Z in
  let ae := Z.to_N (Z.abs e) in
  let mant :=
    match rstrip0 (str_N m) with
    | EmptyString => "0"
    | String c EmptyString => String c EmptyString
    | String c r => String c ("." ++ r)
    end in
  mant ++ "e" ++ (if (e <? 0)%Z then "-" else "+") ++
  (if (ae <? 10)%N then "0" ++ str_N ae else str_N ae).

(** [repr] of a non-negative float: fixed-point notation for [0] and for
    values in [[1e-4, 1e16)], exponent notation otherwise.  The digits
    written are those of the exact value; [repr] may write fewer, which
    [float()] reads back as the same float. *)
Definition repr_nonneg (q : Q) : string :=
  match dec_expansion q with
  | None => "nan"
  | Some (m, k) =>
      if Qeq_bool q 0 ||
         (Qle_bool (1 # 10000) q && negb (Qle_bool (inject_Z (10 ^ 16)) q))
      then fixed_repr (Z.to_N m) k
      else sci_repr (Z.to_N m) k
  end.

Definition py_str (q : Q) : string :=
  if Qle_bool 0 q then repr_nonneg q else "-" ++ repr_nonneg (- q).

(** [f"Binary {kind} approx by ({fn}({K1}) - {fn}({K2})) / ({K2} - {K1})"] *)
Definition note_text (kind fn : string) (K1 K2 : Q) : string :=
  "Binary " ++ kind ++ " approx by (" ++ fn ++ "(" ++ py_str K1 ++ ") - " ++
  fn ++ "(" ++ py_str K2 ++ ")) / (" ++ py_str K2 ++ " - " ++ py_str K1 ++ ")".

(** ** [replicate_binary_option] *)

(** lines 36-43 *)
Definition select_call (strikes : list Q) (strike replication_precision : Q)
  : result (Q * Q) :=
  let strike1_idx := searchsorted_left strikes strike in
  let strike2_idx := searchsorted_left strikes (strike + replication_precision) in
  if (List.length strikes <=? strike1_idx)%nat || (List.length strikes <=? strike2_idx)%nat
  then Err NoSuitableStrikesError
  else
    match nth_error strikes strike1_idx, nth_error strikes strike2_idx with
    | Some K1, Some K2 => Ok (K1, K2)
    | _, _ => Err IndexError
    end.

(** lines 62-69 *)
Definition select_put (strikes : list Q) (strike replication_precision : Q)
  : result (Q * Q) :=
  let strike2_idx := (Z.of_nat (searchsorted_right strikes strike) - 1)%Z in
  let strike1_idx :=
    (Z.of_nat (searchsorted_right strikes (strike - replication_precision)) - 1)%Z in
  if (strike1_idx <? 0)%Z || (strike2_idx <? 0)%Z
  then Err NoSuitableStrikesError
  else
    match nth_error strikes (Z.to_nat strike1_idx),
          nth_error strikes (Z.to_nat strike2_idx) with
    | Some K1, Some K2 => Ok (K1, K2)
    | _, _ => Err IndexError
    end.

(** [df[df['strike'] == K].iloc[0]] *)
Definition first_with_strike (df : list row) (K : Q) : result row :=
  match filter (fun r => Qeq_bool r.(strike) K) df with
  | r :: _ => Ok r
  | [] => Err IndexError
  end.

Record leg : Type := mkLeg {
  instrument : string;
  weight : f64;
  cost : f64
}.

(** the returned dictionary *)
Record replication : Type := mkReplication {
  option_1 : leg;
  option_2 : leg;
  note : string;
  total_cost : f64
}.

(** lines 45-56 and 71-82 *)
Definition build_replication (df_cls : list row) (kind fn : string) (K1 K2 : Q)
  : result replication :=
  opt1 <- first_with_strike df_cls K1 ;;
  opt2 <- first_with_strike df_cls K2 ;;
  let weight1 := f_div (Fin 1) (Fin (K2 - K1)) in
  let weight2 := f_div (Fin (-1)) (Fin (K2 - K1)) in
  Ok {| option_1 := mkLeg opt1.(instrument_name) weight1 opt1.(last_price);
        option_2 := mkLeg opt2.(instrument_name) weight2 opt2.(last_price);
        note := note_text kind fn K1 K2;
        total_cost := f_add (f_mul weight1 opt1.(last_price))
                            (f_mul weight2 opt2.(last_price)) |}.

(** [strike] is the target strike of the binary option *)
Definition replicate_binary_option (vanilla_option_data : list row)
  (opt_type : string) (strike : Q) (expiry_timestamp : Z)
  (replication_precision : Q) : result replication :=
  if String.eqb opt_type "call" then
    let df_calls := df_subset vanilla_option_data expiry_timestamp "call" in
    Ks <- select_call (sorted_strikes df_calls) strike replication_precision ;;
    build_replication df_calls "call" "C" (fst Ks) (snd Ks)
  else if String.eqb opt_type "put" then
    let df_puts := df_subset vanilla_option_data expiry_timestamp "put" in
    Ks <- select_put (sorted_strikes df_puts) strike replication_precision ;;
    build_replication df_puts "put" "P" (fst Ks) (snd Ks)
  else Err InvalidOptionClassError.

(** the strikes [K1, K2] chosen by [replicate_binary_option] *)
Definition selected_strikes (vanilla_option_data : list row)
  (opt_type : string) (strike : Q) (expiry_timestamp : Z)
  (replication_precision : Q) : result (Q * Q) :=
  if String.eqb opt_type "call" then
    select_call (sorted_strikes (df_subset vanilla_option_data expiry_timestamp "call"))
      strike replication_precision
  else if String.eqb opt_type "put" then
    select_put (sorted_strikes (df_subset vanilla_option_data expiry_timestamp "put"))
      strike replication_precision
  else Err InvalidOptionClassError.

(** ** Python values of the result dictionary *)

#[warnings="-register-all"]
Inductive pyval : Type :=
| PyStr (s : string)
| PyNum (x : f64)
| PyDict (d : list (string * pyval)).

Definition dict : Type := list (string * pyval).

Fixpoint dict_get (d : dict) (k : string) : option pyval :=
  match d with
  | [] => None
  | (k', v) :: r => if String.eqb k k' then Some v else dict_get r k
  end.

(** [d[k]] *)
Definition getitem (d : dict) (k : string) : result pyval :=
  match dict_get d k with
  | Some v => Ok v
  | None => Err (KeyError k)
  end.

(** [v[k]] on a value that should be a dict *)
Definition getitem_v (v : pyval) (k : string) : result pyval :=
  match v with
  | PyDict d => getitem d k
  | _ => Err TypeError
  end.

(** a value used in arithmetic *)
Definition as_number (v : pyval) : result f64 :=
  match v with
  | PyNum x => Ok x
  | _ => Err TypeError
  end.

Definition leg_dict (l : leg) : pyval :=
  PyDict [("instrument", PyStr l.(instrument));
          ("weight", PyNum l.(weight));
          ("cost", PyNum l.(cost))].

(** the dictionary literal returned by [replicate_binary_option] *)
Definition as_dict (r : replication) : dict :=
  [("option_1", leg_dict r.(option_1));
   ("option_2", leg_dict r.(option_2));
   ("note", PyStr r.(note));
   ("total_cost", PyNum r.(total_cost))].

(** ** [re.findall] with the pattern of line 108: an open parenthesis,
    one or more digits, an optional dot, digits, a close parenthesis;
    the group is the text between the parentheses *)

Definition is_digit (c : ascii) : bool :=
  Nat.leb 48 (nat_of_ascii c) && Nat.leb (nat_of_ascii c) 57.

(** the longest prefix of digits, and the rest *)
Fixpoint span_digits (s : string) : string * string :=
  match s with
  | EmptyString => ("", "")
  | String c r =>
      if is_digit c then let (d, rest) := span_digits r in (String c d, rest)
      else ("", s)
  end.

(** A match of the pattern at the start of [s]: the group and the length of
    the whole match.  Backtracking cannot help the pattern: giving back a
    digit of [\d+] or [\d*], or the optional dot, leaves a digit or a dot
    where the next item of the pattern needs a dot, a digit or [)], so the
    greedy attempt below is the only one that can succeed. *)
Definition match_paren_num (s : string) : option (string * nat) :=
  match s with
  | String c r =>
      if negb (Ascii.eqb c "("%char) then None else
      let (d1, r1) := span_digits r in
      if String.eqb d1 "" then None else
      let (dot, r2) :=
        match r1 with
        | String c' r' => if Ascii.eqb c' "."%char then (".", r') else ("", r1)
        | EmptyString => ("", r1)
        end in
      let (d2, r3) := span_digits r2 in
      match r3 with
      | String c'' _ =>
          if Ascii.eqb c'' ")"%char
          then let g := d1 ++ dot ++ d2 in Some (g, (String.length g + 2)%nat)
          else None
      | EmptyString => None
      end
  | EmptyString => None
  end.

(** the scan of [findall]: try at every position, and resume after the end
    of each match ([skip] characters still to pass) *)
Fixpoint findall_from (skip : nat) (s : string) : list string :=
  match s with
  | EmptyString => []
  | String _ r =>
      match skip with
      | S k => findall_from k r
      | O =>
          match match_paren_num s with
          | Some (g, n) => g :: findall_from (n - 1) r
          | None => findall_from 0 r
          end
      end
  end.

Definition findall_paren_num (s : string) : list string := findall_from 0 s.

Fixpoint digits_value (acc : N) (s : string) : N :=
  match s with
  | EmptyString => acc
  | String c r => digits_value (10 * acc + (N_of_ascii c - 48))%N r
  end.

(** [float(g)] for a group [g] of the pattern ([digits], [digits.] or
    [digits.digits]) *)
Definition float_of_group (g : string) : Q :=
  let (d1, r) := span_digits g in
  let d2 := match r with String _ r' => r' | EmptyString => EmptyString end in
  inject_Z (Z.of_N (digits_value 0 (d1 ++ d2))) /
  inject_Z (10 ^ Z.of_nat (String.length d2)).

(** ** [plot_binary_replication_payoff] *)

(** [np.linspace(start, stop, num)] *)
Definition linspace (start stop : Q) (num : nat) : list Q :=
  let step := (stop - start) / inject_Z (Z.of_nat (num - 1)) in
  map (fun i => if Nat.ltb 1 num && Nat.eqb i (num - 1) then stop
                else start + inject_Z (Z.of_nat i) * step)
      (seq 0 num).

(** lines 106-116: the strikes read from the note, or estimated from the
    weight of [option_1] *)
Definition strikes_from_note (strike : Q) (replication : dict)
  : result (f64 * f64) :=
  note <- match dict_get replication "note" with
          | None => Ok ""
          | Some (PyStr s) => Ok s
          | Some _ => Err TypeError
          end ;;
  match findall_paren_num note with
  | g1 :: g2 :: _ => Ok (Fin (float_of_group g1), Fin (float_of_group g2))
  | _ =>
      o1 <- getitem replication "option_1" ;;
      w1v <- getitem_v o1 "weight" ;;
      w1 <- as_number w1v ;;
      let diff := f_div (Fin 1) w1 in
      Ok (Fin strike, f_add (Fin strike) diff)
  end.

Definition call_payoff (S : Q) (K : f64) : f64 := f_max (f_sub (Fin S) K) (Fin 0).
Definition put_payoff (S : Q) (K : f64) : f64 := f_max (f_sub K (Fin S)) (Fin 0).

(** [replication['option_X']['weight']] *)
Definition weight_of (replication : dict) (k : string) : result f64 :=
  o <- getitem replication k ;;
  wv <- getitem_v o "weight" ;;
  as_number wv.

(** the three arrays handed to [plt.plot] *)
Record payoff_curve : Type := mkCurve {
  prices : list Q;
  ideal : list Q;
  replicated : list f64
}.

Definition plot_binary_replication_payoff (strike : Q) (opt_type : string)
  (replication : dict) (price_range : option (list Q)) : result payoff_curve :=
  let price_range :=
    match price_range with
    | None => linspace (strike * (1 # 2)) (strike * (3 # 2)) 500
    | Some p => p
    end in
  Ks <- strikes_from_note strike replication ;;
  let K1 := fst Ks in
  let K2 := snd Ks in
  payoffs <-
    (if String.eqb opt_type "call" then
       Ok (map (fun S => call_payoff S K1) price_range,
           map (fun S => call_payoff S K2) price_range)
     else if String.eqb opt_type "put" then
       Ok (map (fun S => put_payoff S K1) price_range,
           map (fun S => put_payoff S K2) price_range)
     else Err InvalidOptionClassError) ;;
  w1 <- weight_of replication "option_1" ;;
  w2 <- weight_of replication "option_2" ;;
  let replicated_payoff :=
    map (fun ab => f_add (f_mul w1 (fst ab)) (f_mul w2 (snd ab)))
        (combine (fst payoffs) (snd payoffs)) in
  let ideal_payoff :=
    if String.eqb opt_type "call"
    then map (fun S => if Qle_bool strike S then 1 else 0) price_range
    else map (fun S => if Qle_bool S strike then 1 else 0) price_range in
  Ok {| prices := price_range; ideal := ideal_payoff;
        replicated := replicated_payoff |}.

(** ** Predicates used by the proofs about the note *)

Fixpoint all_digits (s : string) : bool :=
  match s with
  | EmptyString => true
  | String c r => is_digit c && all_digits r
  end.

(** no position of [s] can start a match, whatever follows [s] *)
Fixpoint inert_prefix (s : string) : bool :=
  match s with
  | EmptyString => true
  | String c r =>
      (negb (Ascii.eqb c "("%char) ||
       match r with String c' _ => negb (is_digit c') | EmptyString => false end) &&
      inert_prefix r
  end.

(** a value of a float: a binary fraction *)
Definition is_binary_fraction (q : Q) : Prop :=
  exists e : nat, Zpos (Qden (Qred q)) = (2 ^ Z.of_nat e)%Z.

(** the values [repr] writes in fixed-point notation and that carry no sign *)
Definition repr_is_fixed (q : Q) : Prop :=
  q == 0 \/ (1 # 10000 <= q /\ q < inject_Z (10 ^ 16)).

(** ** Example tables *)

Definition example_expiry : Z := 1703836800000%Z.

Definition example_row (cls : string) (k : Z) (price : Q) : row :=
  {| option_type := cls; strike := inject_Z k;
     expiration_timestamp := example_expiry;
     instrument_name := "BTC-" ++ str_N (Z.to_N k) ++
                        (if String.eqb cls "call" then "-C" else "-P");
     last_price := Fin price |}.

(** the table of the spec's end-to-end scenarios: calls and puts at
    9000, 9500, 10000, 10500 and 11000 *)
Definition spec_table : list row :=
  [example_row "call" 9000 (1150 # 1); example_row "call" 9500 (800 # 1);
   example_row "call" 10000 (500 # 1); example_row "call" 10500 (280 # 1);
   example_row "call" 11000 (140 # 1);
   example_row "put" 9000 (120 # 1); example_row "put" 9500 (270 # 1);
   example_row "put" 10000 (480 # 1); example_row "put" 10500 (760 # 1);
   example_row "put" 11000 (1110 # 1)].

(** a table with a single call strike above the target *)
Definition single_call_table : list row :=
  [example_row "call" 11000 (140 # 1)].

(** a table with call strikes 1e16 and 2e16 *)
Definition large_strike_table : list row :=
  [example_row "call" (10 ^ 16) (3 # 1); example_row "call" (2 * 10 ^ 16) (1 # 1)].

(** ** The payoff of a call spread and of a put spread, per unit width *)

(** [0] up to [K1], [1] from [K2] on, linear in between *)
Definition call_ramp (K1 K2 S : Q) : Q :=
  if Qle_bool S K1 then 0
  else if Qle_bool K2 S then 1
  else (S - K1) / (K2 - K1).

(** [-1] up to [K1], [0] from [K2] on, linear in between *)
Definition put_ramp (K1 K2 S : Q) : Q :=
  if Qle_bool S K1 then -1
  else if Qle_bool K2 S then 0
  else (S - K2) / (K2 - K1).

(** * [src/utils.py] and [src/data_fetcher.py] *)

(** ** JSON values, as [json.loads] (and [response.json()]) returns them:
    [None], [bool], [int], [float], [str], [list] and [dict] *)

#[warnings="-register-all"]
Inductive json : Type :=
| JNull
| JBool (b : bool)
| JInt (z : Z)
| JFloat (x : f64)
| JStr (s : string)
| JList (l : list json)
| JObj (d : list (string * json)).

(** a JSON object as a Python dict, in insertion order *)
Definition jdict : Type := list (string * json).

(** [d.get(k)] ([None] when absent) *)
Fixpoint jget (d : jdict) (k : string) : option json :=
  match d with
  | [] => None
  | (k', v) :: r => if String.eqb k k' then Some v else jget r k
  end.

(** [d[k] = v]: an existing key keeps its place, a new key goes last *)
Fixpoint jset (d : jdict) (k : string) (v : json) : jdict :=
  match d with
  | [] => [(k, v)]
  | (k', v') :: r => if String.eqb k k' then (k', v) :: r else (k', v') :: jset r k v
  end.

(** [d.update(other)] *)
Definition jupdate (d other : jdict) : jdict :=
  fold_left (fun acc kv => jset acc (fst kv) (snd kv)) other d.

(** [bool(v)] *)
Definition truthy (v : json) : bool :=
  match v with
  | JNull => false
  | JBool b => b
  | JInt z => negb (Z.eqb z 0)
  | JFloat (Fin q) => negb (Qeq_bool q 0)
  | JFloat _ => true
  | JStr s => negb (String.eqb s "")
  | JList l => match l with [] => false | _ => true end
  | JObj d => match d with [] => false | _ => true end
  end.

(** ** Exceptions of these modules, and the error monad *)

Inductive exc : Type :=
| PyError (e : error)
| AttributeError
| HTTPError (status_code : Z)
| JSONDecodeError
| OverflowError (msg : string).

Inductive outcome (A : Type) : Type :=
| Done (a : A)
| Raise (e : exc).
Arguments Done {A} a.
Arguments Raise {A} e.

Notation "x <-- m ;; k" :=
  (match m with Done x => k | Raise e => Raise e end)
  (at level 61, m at next level, right associativity).

(** [for x in v]: a list gives its elements, a dict its keys, a string its
    characters; other values are not iterable *)
Definition py_iter (v : json) : outcome (list json) :=
  match v with
  | JList l => Done l
  | JObj d => Done (map (fun kv => JStr (fst kv)) d)
  | JStr s => Done (map (fun c => JStr (String c EmptyString)) (list_ascii_of_string s))
  | _ => Raise (PyError TypeError)
  end.

(** ** [utils.filter_instruments] *)

(** the value of an [int], [float] or [bool] (a [bool] is an [int]) *)
Definition json_number (v : json) : option f64 :=
  match v with
  | JInt z => Some (Fin (inject_Z z))
  | JFloat x => Some x
  | JBool b => Some (Fin (if b then 1 else 0))
  | _ => None
  end.

(** [==] on numbers ([int] and [float] compare by value; [nan] equals
    nothing) *)
Definition num_eqb (x y : f64) : bool :=
  match x, y with
  | Fin a, Fin b => Qeq_bool a b
  | PInf, PInf | NInf, NInf => true
  | _, _ => false
  end.

(** [inst.get(k) == x] for a number [x]: [None] and non-numbers differ
    from every number *)
Definition get_eq (inst : jdict) (k : string) (x : f64) : bool :=
  match jget inst k with
  | Some v => match json_number v with Some y => num_eqb y x | None => false end
  | None => false
  end.

(** [[inst for inst in l if inst.get(k) == x]]; [.get] of a non-dict raises *)
Fixpoint filter_get (l : list json) (k : string) (x : f64) : outcome (list json) :=
  match l with
  | [] => Done []
  | JObj d :: r =>
      kept <-- filter_get r k x ;;
      Done (if get_eq d k x then JObj d :: kept else kept)
  | _ :: _ => Raise AttributeError
  end.

(** the filters are numbers or [None] *)
Definition filter_instruments (instruments : json) (strike : option f64)
  (expiration_timestamp : option f64) : outcome json :=
  filtered <--
    match strike with
    | None => Done instruments
    | Some x => l <-- py_iter instruments ;;
                kept <-- filter_get l "strike" x ;; Done (JList kept)
    end ;;
  match expiration_timestamp with
  | None => Done filtered
  | Some x => l <-- py_iter filtered ;;
              kept <-- filter_get l "expiration_timestamp" x ;; Done (JList kept)
  end.

(** ** [utils.json_to_dataframe] *)

(** [pd.DataFrame(list_of_dicts)]: the columns are the keys in order of
    first appearance; a missing key is a missing value ([None]) *)
Record frame : Type := mkFrame {
  columns : list string;
  values : list (list (option json))
}.

Definition add_columns (cols : list string) (d : jdict) : list string :=
  fold_left (fun acc kv => if existsb (String.eqb (fst kv)) acc then acc
                           else app acc [fst kv]) d cols.

Definition columns_of (l : list jdict) : list string := fold_left add_columns l [].

Definition pd_DataFrame (l : list jdict) : frame :=
  let cols := columns_of l in
  {| columns := cols; values := map (fun d => map (jget d) cols) l |}.

(** [df.empty]: no row or no column *)
Definition frame_empty (f : frame) : bool :=
  match f.(columns), f.(values) with
  | [], _ | _, [] => true
  | _, _ => false
  end.

Definition json_to_dataframe (json_data : list jdict) : outcome frame :=
  match json_data with
  | [] => Raise (PyError (ValueError "Input JSON data is empty"))
  | _ =>
      let df := pd_DataFrame json_data in
      if frame_empty df then Raise (PyError (ValueError "Converted DataFrame is empty"))
      else Done df
  end.

(** ** [data_fetcher.flatten_instrument] *)

(** [instrument.get('stats', [])] then [for key, value in stats.items()]:
    only a dict has [.items()] (the default [[]] has none) *)
Definition flatten_instrument (instrument : json) : outcome jdict :=
  match instrument with
  | JObj d =>
      let stats := match jget d "stats" with Some v => v | None => JList [] end in
      match stats with
      | JObj s =>
          Done (fold_left (fun acc kv =>
                  match jget acc (fst kv) with
                  | Some _ => acc
                  | None => jset acc (fst kv) (snd kv)
                  end) s d)
      | _ => Raise AttributeError
      end
  | _ => Raise AttributeError
  end.

(** ** HTTP requests, as a trace of events and answers from the server *)

(** the two URLs the module requests: the instrument list
    ([/public/get_instruments?currency=BTC&kind=option]) and the ticker of
    an instrument ([/public/ticker?instrument_name=...]), named by the value
    the code puts in the URL *)
Inductive request : Type :=
| GetInstruments
| GetTicker (instrument_name : json).

(** [body = None]: the body is not JSON *)
Record response : Type := mkResponse {
  status_code : Z;
  body : option json
}.

Inductive event : Type :=
| Sent (r : request)
| Slept.

(** a computation: the events it performs, then its outcome *)
Definition io (A : Type) : Type := (list event * outcome A)%type.

Definition io_bind {A B : Type} (m : io A) (k : A -> io B) : io B :=
  match snd m with
  | Done a => let (t, o) := k a in (app (fst m) t, o)
  | Raise e => (fst m, Raise e)
  end.

Definition lift {A : Type} (o : outcome A) : io A := ([], o).

Notation "x <~ m ;; k" := (io_bind m (fun x => k))
  (at level 61, m at next level, right associativity).

(** [response.raise_for_status()] *)
Definition raise_for_status (r : response) : outcome unit :=
  if (400 <=? status_code r)%Z && (status_code r <? 600)%Z
  then Raise (HTTPError (status_code r)) else Done tt.

(** [response.json()] *)
Definition response_json (r : response) : outcome json :=
  match body r with Some j => Done j | None => Raise JSONDecodeError end.

(** [data['result']] when [('result' in data and data['result'])] holds,
    [None] when it does not *)
Definition result_field (data : json) : outcome (option json) :=
  match data with
  | JObj d =>
      match jget d "result" with
      | Some v => Done (if truthy v then Some v else None)
      | None => Done None
      end
  | JList l =>
      if existsb (fun v => match v with JStr s => String.eqb s "result" | _ => false end) l
      then Raise (PyError TypeError) else Done None
  | JStr s =>
      match String.index 0 "result" s with
      | Some _ => Raise (PyError TypeError)
      | None => Done None
      end
  | _ => Raise (PyError TypeError)
  end.

(** lines 71-74: [strike] is [None], an [int] or a [float] ([bool] is an
    [int]); [expiration_timestamp] is [None] or an [int] *)
Definition check_strike (strike : json) : outcome (option f64) :=
  match strike with
  | JNull => Done None
  | _ => match json_number strike with
         | Some x => Done (Some x)
         | None => Raise (PyError TypeError)
         end
  end.

Definition check_expiration (expiration_timestamp : json) : outcome (option f64) :=
  match expiration_timestamp with
  | JNull => Done None
  | JInt z => Done (Some (Fin (inject_Z z)))
  | JBool b => Done (Some (Fin (if b then 1 else 0)))
  | _ => Raise (PyError TypeError)
  end.

Section Fetch.

(** the answers of the API *)
Variable http : request -> response.

(** [requests.get(url)] *)
Definition requests_get (r : request) : io response := ([Sent r], Done (http r)).

Definition get_ticker (instrument_name : json) : io jdict :=
  response <~ requests_get (GetTicker instrument_name) ;;
  _ <~ lift (raise_for_status response) ;;
  data <~ lift (response_json response) ;;
  res <~ lift (result_field data) ;;
  match res with
  | Some v => lift (flatten_instrument v)
  | None => lift (Raise (PyError (ValueError "Invalid response format or no result found.")))
  end.

(** the loop of lines 84-87: [instrument['instrument_name']], the ticker,
    [instrument.update(extra_data)], [time.sleep] *)
Fixpoint fetch_tickers (l : list json) : io (list jdict) :=
  match l with
  | [] => ([], Done [])
  | JObj d :: r =>
      name <~ lift (match jget d "instrument_name" with
                    | Some v => Done v
                    | None => Raise (PyError (KeyError "instrument_name"))
                    end) ;;
      extra_data <~ get_ticker name ;;
      _ <~ ([Slept], Done tt) ;;
      rest <~ fetch_tickers r ;;
      ([], Done (jupdate d extra_data :: rest))
  | _ :: _ => lift (Raise (PyError TypeError))
  end.

Definition get_btc_option_instruments (strike expiration_timestamp : json)
  : io frame :=
  strike_v <~ lift (check_strike strike) ;;
  expiration_v <~ lift (check_expiration expiration_timestamp) ;;
  response <~ requests_get GetInstruments ;;
  _ <~ lift (raise_for_status response) ;;
  data <~ lift (response_json response) ;;
  res <~ lift (result_field data) ;;
  match res with
  | Some instruments =>
      filtered <~ lift (filter_instruments instruments strike_v expiration_v) ;;
      items <~ lift (py_iter filtered) ;;
      updated <~ fetch_tickers items ;;
      lift (json_to_dataframe updated)
  | None => lift (Raise (PyError (ValueError "No instruments found or invalid response format.")))
  end.

End Fetch.

(** ** [utils.datetime_to_utc_timestamp_ms] *)

(** Binary64 arithmetic: [round_half_even n d] is the integer nearest to
    [n / d] ([d > 0]), ties to even; [b64_div n d] is [n / d] rounded to the
    nearest double, ties to even, which is what Python's [int / int] returns
    and, applied to an exact product, what [float * float] returns (the
    magnitudes met here are far from overflow and subnormals) *)
Definition round_half_even (n d : Z) : Z :=
  let q := (n / d)%Z in
  let r := (n mod d)%Z in
  match Z.compare (2 * r) d with
  | Lt => q
  | Gt => (q + 1)%Z
  | Eq => if Z.even q then q else (q + 1)%Z
  end.

(** [2 ^ k <= |n| / d] *)
Definition pow2_le_b (k n d : Z) : bool :=
  if (0 <=? k)%Z then (d * 2 ^ k <=? Z.abs n)%Z else (d <=? Z.abs n * 2 ^ (- k))%Z.

(** [floor (log2 (|n| / d))] for [n <> 0], [d > 0] *)
Definition flog2 (n d : Z) : Z :=
  let k0 := (Z.log2 (Z.abs n) - Z.log2 d)%Z in
  if pow2_le_b k0 n d then k0 else (k0 - 1)%Z.

Definition b64_div (n d : Z) : Q :=
  if (n =? 0)%Z then 0
  else
    let e := (flog2 n d - 52)%Z in
    if (0 <=? e)%Z then inject_Z (round_half_even n (d * 2 ^ e) * 2 ^ e)
    else Qmake (round_half_even (n * 2 ^ (- e)) d) (Z.to_pos (2 ^ (- e))).

Definition b64_round (x : Q) : Q := b64_div (Qnum x) (Zpos (Qden x)).

(** [int(x)] of a float: truncation toward zero *)
Definition py_int (x : Q) : Z := Z.quot (Qnum x) (Zpos (Qden x)).

(** A [datetime] is its wall-clock time, in microseconds since
    0001-01-01T00:00:00, and its [tzinfo]: none, or the UTC offset (in
    microseconds) that its [tzinfo] gives it *)
Inductive tz : Type :=
| Naive
| Offset (utcoffset_us : Z).

Record datetime : Type := mkDatetime {
  local_us : Z;
  tzinfo : tz
}.

Definition us_per_day : Z := 86400000000.

(** 9999-12-31T23:59:59.999999, the largest [datetime] *)
Definition MAX_US : Z := (3652059 * us_per_day - 1)%Z.

(** 1970-01-01T00:00:00 *)
Definition EPOCH_US : Z := (719162 * us_per_day)%Z.

(** [dt.astimezone(pytz.UTC)] of an aware [dt], as the UTC wall-clock time:
    the offset is checked by [utcoffset()], then [dt - offset] must be a
    [datetime] *)
Definition astimezone_utc (local off : Z) : outcome Z :=
  if negb ((- us_per_day <? off)%Z && (off <? us_per_day)%Z) then
    Raise (PyError (ValueError "offset must be a timedelta strictly between -timedelta(hours=24) and timedelta(hours=24)."))
  else
    let u := (local - off)%Z in
    if (0 <=? u)%Z && (u <=? MAX_US)%Z then Done u
    else Raise (OverflowError "date value out of range").

(** [dt_utc.timestamp()]: [(dt_utc - EPOCH).total_seconds()], the
    microseconds divided by [10 ** 6] with [int / int] *)
Definition timestamp (utc_us : Z) : Q := b64_div (utc_us - EPOCH_US) 1000000.

Definition datetime_to_utc_timestamp_ms (dt : datetime) : outcome Z :=
  match tzinfo dt with
  | Naive => Raise (PyError (ValueError "Datetime object must be timezone-aware"))
  | Offset off =>
      dt_utc <-- astimezone_utc (local_us dt) off ;;
      Done (py_int (b64_round (timestamp dt_utc * 1000)))
  end.

(** an instrument listing, and an API that serves it with one ticker for
    every name *)
Definition example_instruments : json :=
  JList [JObj [("instrument_name", JStr "BTC-27JUN25-100000-C");
               ("strike", JFloat (Fin 100000));
               ("expiration_timestamp", JInt 1750996800000)]].

Definition example_api (r : request) : response :=
  match r with
  | GetInstruments => mkResponse 200 (Some (JObj [("result", example_instruments)]))
  | GetTicker _ =>
      mkResponse 200 (Some (JObj [("result", JObj
        [("mark_price", JFloat (Fin (1 # 20)));
         ("stats", JObj [("volume", JInt 12); ("mark_price", JInt 0)])])]))
  end.

(** ** Sorting, [unique] and [searchsorted] *)

Lemma In_insert_sorted (x z : Q) (l : list Q) :
  In z (insert_sorted x l) <-> x = z \/ In z l.
Proof.
  induction l as [|y r IH]; simpl.
  - tauto.
  - destruct (Qle_bool x y); simpl; rewrite ?IH; tauto.
Qed.

Lemma In_np_sort (z : Q) (l : list Q) : In z (np_sort l) <-> In z l.
Proof.
  induction l as [|x r IH]; simpl.
  - tauto.
  - rewrite In_insert_sorted, IH. tauto.
Qed.

Lemma insert_sorted_sorted (x : Q) (l : list Q) :
  StronglySorted Qle l -> StronglySorted Qle (insert_sorted x l).
Proof.
  induction l as [|y r IH]; intros Hs; simpl.
  - repeat constructor.
  - inversion Hs as [|? ? Hr Hy]; subst.
    destruct (Qle_bool x y) eqn:Hxy.
    + apply Qle_bool_iff in Hxy.
      constructor; [exact Hs|].
      constructor; [exact Hxy|].
      rewrite Forall_forall in Hy |- *.
      intros z Hz. apply Qle_trans with y; auto.
    + assert (y <= x) as Hyx.
      { apply Qlt_le_weak, Qnot_le_lt. intros H. apply Qle_bool_iff in H. congruence. }
      constructor; [now apply IH|].
      rewrite Forall_forall in Hy |- *.
      intros z Hz. apply In_insert_sorted in Hz as [<-|Hz]; auto.
Qed.

Lemma np_sort_sorted (l : list Q) : StronglySorted Qle (np_sort l).
Proof.
  induction l as [|x r IH]; simpl.
  - constructor.
  - now apply insert_sorted_sorted.
Qed.

Lemma In_pd_unique_aux (seen l : list Q) (z : Q) :
  In z (pd_unique_aux seen l) -> In z l.
Proof.
  revert seen. induction l as [|x r IH]; intros seen; simpl.
  - tauto.
  - destruct (existsb (Qeq_bool x) seen); simpl.
    + intros H. right. eapply IH. exact H.
    + intros [H|H]; [now left|right]. eapply IH. exact H.
Qed.

Lemma pd_unique_aux_covers (seen l : list Q) (z : Q) :
  In z l ->
  (exists y, In y seen /\ z == y) \/ (exists y, In y (pd_unique_aux seen l) /\ z == y).
Proof.
  revert seen. induction l as [|x r IH]; intros seen Hz; simpl in *.
  - tauto.
  - destruct Hz as [->|Hz].
    + destruct (existsb (Qeq_bool z) seen) eqn:He.
      * left. apply existsb_exists in He as (y & Hy & Hq).
        exists y. split; [exact Hy|]. now apply Qeq_bool_iff.
      * right. exists z. split; [now left|]. reflexivity.
    + destruct (existsb (Qeq_bool x) seen).
      * now apply IH.
      * destruct (IH (x :: seen) Hz) as [(y & [->|Hy] & Hq)|(y & Hy & Hq)].
        -- right. exists y. split; [now left|exact Hq].
        -- left. now exists y.
        -- right. exists y. split; [now right|exact Hq].
Qed.

Lemma sorted_strikes_sorted (df : list row) :
  StronglySorted Qle (sorted_strikes df).
Proof. apply np_sort_sorted. Qed.

Lemma In_sorted_strikes (df : list row) (K : Q) :
  In K (sorted_strikes df) -> In K (map strike df).
Proof.
  unfold sorted_strikes. rewrite In_np_sort. apply In_pd_unique_aux.
Qed.

Lemma sorted_strikes_covers (df : list row) (s : Q) :
  In s (map strike df) -> exists y, In y (sorted_strikes df) /\ s == y.
Proof.
  intros Hs. unfold sorted_strikes.
  destruct (pd_unique_aux_covers [] _ s Hs) as [(y & [] & _)|(y & Hy & Hq)].
  exists y. rewrite In_np_sort. now split.
Qed.

Lemma searchsorted_left_spec (a : list Q) (v x : Q) :
  StronglySorted Qle a ->
  nth_error a (searchsorted_left a v) = Some x ->
  v <= x /\ (forall y, In y a -> v <= y -> x <= y).
Proof.
  induction a as [|z r IH]; intros Hs Hn; simpl in Hn.
  - destruct (searchsorted_left [] v); discriminate.
  - inversion Hs as [|? ? Hr Hz]; subst.
    rewrite Forall_forall in Hz.
    destruct (Qle_bool v z) eqn:Hvz; simpl in Hn.
    + injection Hn as <-. apply Qle_bool_iff in Hvz.
      split; [exact Hvz|].
      intros y [<-|Hy] _; [apply Qle_refl|auto].
    + destruct (IH Hr Hn) as [H1 H2]. split; [exact H1|].
      intros y [<-|Hy] Hvy; [|auto].
      apply Qle_bool_iff in Hvy. congruence.
Qed.

Lemma searchsorted_left_above (a : list Q) (v : Q) :
  (forall y, In y a -> y < v) -> searchsorted_left a v = List.length a.
Proof.
  induction a as [|z r IH]; intros Ha; simpl; [reflexivity|].
  destruct (Qle_bool v z) eqn:Hvz.
  - apply Qle_bool_iff in Hvz.
    exfalso. apply (Qlt_not_le z v); [apply Ha; now left|exact Hvz].
  - f_equal. apply IH. intros y Hy. apply Ha. now right.
Qed.

Lemma searchsorted_right_zero (a : list Q) (v : Q) :
  StronglySorted Qle a -> searchsorted_right a v = O ->
  forall y, In y a -> v < y.
Proof.
  destruct a as [|z r]; intros Hs H0 y Hy; [destruct Hy|].
  simpl in H0. destruct (Qle_bool z v) eqn:Hzv; simpl in H0; [discriminate|].
  assert (v < z) as Hvz.
  { apply Qnot_le_lt. intros H. apply Qle_bool_iff in H. congruence. }
  inversion Hs as [|? ? Hr Hz]; subst. rewrite Forall_forall in Hz.
  destruct Hy as [<-|Hy]; [exact Hvz|].
  apply Qlt_le_trans with z; auto.
Qed.

Lemma searchsorted_right_spec (a : list Q) (v x : Q) (i : nat) :
  StronglySorted Qle a ->
  searchsorted_right a v = S i ->
  nth_error a i = Some x ->
  x <= v /\ (forall y, In y a -> y <= v -> y <= x).
Proof.
  revert i. induction a as [|z r IH]; intros i Hs Hi Hn; [discriminate|].
  inversion Hs as [|? ? Hr Hz]; subst. rewrite Forall_forall in Hz.
  simpl in Hi. destruct (Qle_bool z v) eqn:Hzv; simpl in Hi; [|discriminate].
  apply Qle_bool_iff in Hzv. injection Hi as Hi.
  destruct i as [|i]; simpl in Hn.
  - injection Hn as <-. split; [exact Hzv|].
    intros y [<-|Hy] Hyv; [apply Qle_refl|].
    exfalso. apply (Qlt_not_le v y); [|exact Hyv].
    eapply searchsorted_right_zero; eauto.
  - destruct (IH i Hr Hi Hn) as [H1 H2]. split; [exact H1|].
    intros y [<-|Hy] Hyv; [|auto].
    apply Hz. eapply nth_error_In. exact Hn.
Qed.

Lemma searchsorted_right_below (a : list Q) (v : Q) :
  (forall y, In y a -> v < y) -> searchsorted_right a v = O.
Proof.
  destruct a as [|z r]; intros Ha; simpl; [reflexivity|].
  destruct (Qle_bool z v) eqn:Hzv; [|reflexivity].
  apply Qle_bool_iff in Hzv.
  exfalso. apply (Qlt_not_le v z); [apply Ha; now left|exact Hzv].
Qed.

Lemma select_call_spec (strikes : list Q) (T p K1 K2 : Q) :
  StronglySorted Qle strikes ->
  select_call strikes T p = Ok (K1, K2) ->
  (In K1 strikes /\ T <= K1 /\ (forall y, In y strikes -> T <= y -> K1 <= y)) /\
  (In K2 strikes /\ T + p <= K2 /\ (forall y, In y strikes -> T + p <= y -> K2 <= y)).
Proof.
  unfold select_call. intros Hs H.
  destruct (_ || _); [discriminate|].
  destruct (nth_error strikes (searchsorted_left strikes T)) as [k1|] eqn:H1;
    [|discriminate].
  destruct (nth_error strikes (searchsorted_left strikes (T + p))) as [k2|] eqn:H2;
    [|discriminate].
  injection H as <- <-.
  split; (split; [eapply nth_error_In; eassumption|]);
    eapply searchsorted_left_spec; eassumption.
Qed.

Lemma select_put_spec (strikes : list Q) (T p K1 K2 : Q) :
  StronglySorted Qle strikes ->
  select_put strikes T p = Ok (K1, K2) ->
  (In K1 strikes /\ K1 <= T - p /\ (forall y, In y strikes -> y <= T - p -> y <= K1)) /\
  (In K2 strikes /\ K2 <= T /\ (forall y, In y strikes -> y <= T -> y <= K2)).
Proof.
  unfold select_put. intros Hs H.
  destruct (_ || _) eqn:Hb; [discriminate|].
  apply orb_false_iff in Hb as [Hb1 Hb2].
  apply Z.ltb_ge in Hb1, Hb2.
  destruct (searchsorted_right strikes (T - p)) as [|i1] eqn:E1; [simpl in Hb1; lia|].
  destruct (searchsorted_right strikes T) as [|i2] eqn:E2; [simpl in Hb2; lia|].
  replace (Z.to_nat (Z.of_nat (S i1) - 1)) with i1 in H by lia.
  replace (Z.to_nat (Z.of_nat (S i2) - 1)) with i2 in H by lia.
  destruct (nth_error strikes i1) as [k1|] eqn:H1; [|discriminate].
  destruct (nth_error strikes i2) as [k2|] eqn:H2; [|discriminate].
  injection H as <- <-.
  split; (split; [eapply nth_error_In; eassumption|]);
    eapply searchsorted_right_spec; eassumption.
Qed.

Lemma strikes_lower_bound (df : list row) (B K : Q) :
  (forall y, In y (sorted_strikes df) -> B <= y -> K <= y) ->
  forall s, In s (map strike df) -> B <= s -> K <= s.
Proof.
  intros H s Hs Hb.
  destruct (sorted_strikes_covers df s Hs) as (y & Hy & Hq).
  rewrite Hq in Hb |- *. auto.
Qed.

Lemma strikes_upper_bound (df : list row) (B K : Q) :
  (forall y, In y (sorted_strikes df) -> y <= B -> y <= K) ->
  forall s, In s (map strike df) -> s <= B -> s <= K.
Proof.
  intros H s Hs Hb.
  destruct (sorted_strikes_covers df s Hs) as (y & Hy & Hq).
  rewrite Hq in Hb |- *. auto.
Qed.

(** ** C2: the call-side selector *)

(** C2 (as stated, fails): with a negative precision the call-side
    selector returns K1 = 10000 > K2 = 9500 on the spec's table. *)
Lemma C2_negative_precision_K1_above_K2 :
  selected_strikes spec_table "call" 10000 example_expiry (-500)
    = Ok (10000, 9500) /\ ~ (10000 <= 9500).
Proof.
  split; [vm_compute; reflexivity|].
  intros H. vm_compute in H. apply H. reflexivity.
Qed.

(** C2 (amended): when both insertion indices are in bounds, the call-side
    selector returns K1 = the smallest available strike >= target and
    K2 = the smallest available strike >= target + precision (both strikes
    of (expiration, call) rows); K1 <= K2 whenever precision >= 0. *)
Theorem C2_call_selector_spec (df : list row) (expiry : Z) (T p K1 K2 : Q) :
  selected_strikes df "call" T expiry p = Ok (K1, K2) ->
  (In K1 (map strike (df_subset df expiry "call")) /\ T <= K1 /\
   (forall s, In s (map strike (df_subset df expiry "call")) -> T <= s -> K1 <= s)) /\
  (In K2 (map strike (df_subset df expiry "call")) /\ T + p <= K2 /\
   (forall s, In s (map strike (df_subset df expiry "call")) -> T + p <= s -> K2 <= s)) /\
  (0 <= p -> K1 <= K2).
Proof.
  intros H. simpl in H.
  destruct (select_call_spec _ _ _ _ _ (sorted_strikes_sorted _) H)
    as [(I1 & B1 & M1) (I2 & B2 & M2)].
  split; [|split].
  - split; [now apply In_sorted_strikes|split; [exact B1|]].
    now apply strikes_lower_bound.
  - split; [now apply In_sorted_strikes|split; [exact B2|]].
    now apply strikes_lower_bound.
  - intros Hp. apply M1; [exact I2|].
    apply Qle_trans with (T + p); [|exact B2].
    rewrite <- (Qplus_0_r T) at 1. now apply Qplus_le_r.
Qed.

Lemma C2_call_selector_spec_witness :
  selected_strikes spec_table "call" 10000 example_expiry 500 = Ok (10000, 10500) /\
  ((In 10000 (map strike (df_subset spec_table example_expiry "call")) /\ 10000 <= 10000 /\
   (forall s, In s (map strike (df_subset spec_table example_expiry "call")) ->
      10000 <= s -> 10000 <= s)) /\
  (In 10500 (map strike (df_subset spec_table example_expiry "call")) /\
   10000 + 500 <= 10500 /\
   (forall s, In s (map strike (df_subset spec_table example_expiry "call")) ->
      10000 + 500 <= s -> 10500 <= s)) /\
  (0 <= 500 -> 10000 <= 10500)).
Proof.
  assert (H : selected_strikes spec_table "call" 10000 example_expiry 500
                = Ok (10000, 10500)) by (vm_compute; reflexivity).
  split; [exact H|].
  exact (C2_call_selector_spec spec_table example_expiry 10000 500 10000 10500 H).
Defined.

(** ** C3: the put-side selector *)

(** C3 (as stated, fails): with a negative precision the put-side
    selector returns K1 = 10500 > K2 = 10000 on the spec's table. *)
Lemma C3_negative_precision_K1_above_K2 :
  selected_strikes spec_table "put" 10000 example_expiry (-500)
    = Ok (10500, 10000) /\ ~ (10500 <= 10000).
Proof.
  split; [vm_compute; reflexivity|].
  intros H. vm_compute in H. apply H. reflexivity.
Qed.

(** C3 (amended): when both indices are non-negative, the put-side selector
    returns K2 = the largest available strike <= target and K1 = the
    largest available strike <= target - precision (both strikes of
    (expiration, put) rows); K1 <= K2 whenever precision >= 0. *)
Theorem C3_put_selector_spec (df : list row) (expiry : Z) (T p K1 K2 : Q) :
  selected_strikes df "put" T expiry p = Ok (K1, K2) ->
  (In K2 (map strike (df_subset df expiry "put")) /\ K2 <= T /\
   (forall s, In s (map strike (df_subset df expiry "put")) -> s <= T -> s <= K2)) /\
  (In K1 (map strike (df_subset df expiry "put")) /\ K1 <= T - p /\
   (forall s, In s (map strike (df_subset df expiry "put")) -> s <= T - p -> s <= K1)) /\
  (0 <= p -> K1 <= K2).
Proof.
  intros H. simpl in H.
  destruct (select_put_spec _ _ _ _ _ (sorted_strikes_sorted _) H)
    as [(I1 & B1 & M1) (I2 & B2 & M2)].
  split; [|split].
  - split; [now apply In_sorted_strikes|split; [exact B2|]].
    now apply strikes_upper_bound.
  - split; [now apply In_sorted_strikes|split; [exact B1|]].
    now apply strikes_upper_bound.
  - intros Hp. apply M2; [exact I1|].
    apply Qle_trans with (T - p); [exact B1|].
    rewrite <- (Qplus_0_r T) at 2. unfold Qminus. apply Qplus_le_r.
    rewrite <- (Qopp_involutive 0). apply Qopp_le_compat. exact Hp.
Qed.

Lemma C3_put_selector_spec_witness :
  selected_strikes spec_table "put" 10000 example_expiry 500 = Ok (9500, 10000) /\
  ((In 10000 (map strike (df_subset spec_table example_expiry "put")) /\ 10000 <= 10000 /\
   (forall s, In s (map strike (df_subset spec_table example_expiry "put")) ->
      s <= 10000 -> s <= 10000)) /\
  (In 9500 (map strike (df_subset spec_table example_expiry "put")) /\
   9500 <= 10000 - 500 /\
   (forall s, In s (map strike (df_subset spec_table example_expiry "put")) ->
      s <= 10000 - 500 -> s <= 9500)) /\
  (0 <= 500 -> 9500 <= 10000)).
Proof.
  assert (H : selected_strikes spec_table "put" 10000 example_expiry 500
                = Ok (9500, 10000)) by (vm_compute; reflexivity).
  split; [exact H|].
  exact (C3_put_selector_spec spec_table example_expiry 10000 500 9500 10000 H).
Defined.

(** ** C8: no bracketing strike *)

(** C8: if no (expiration, call) strike is >= target + precision, or no
    (expiration, put) strike is <= target - precision, the replication
    raises [NoSuitableStrikesError] and returns no result. *)
Theorem C8_no_bracketing_strike_raises (df : list row) (cls : string)
  (expiry : Z) (T p : Q) :
  (cls = "call" /\ (forall s, In s (map strike (df_subset df expiry "call")) -> s < T + p)) \/
  (cls = "put" /\ (forall s, In s (map strike (df_subset df expiry "put")) -> T - p < s)) ->
  replicate_binary_option df cls T expiry p = Err NoSuitableStrikesError.
Proof.
  intros [[-> H]|[-> H]]; unfold replicate_binary_option; simpl.
  - unfold select_call.
    rewrite (searchsorted_left_above (sorted_strikes _) (T + p)).
    + rewrite Nat.leb_refl, orb_true_r. reflexivity.
    + intros y Hy. apply H. now apply In_sorted_strikes.
  - unfold select_put.
    rewrite (searchsorted_right_below (sorted_strikes _) (T - p)).
    + reflexivity.
    + intros y Hy. apply H. now apply In_sorted_strikes.
Qed.

Ltac in_list_cases H :=
  repeat match type of H with
         | _ \/ _ => let H' := fresh in destruct H as [H'|H]; [subst|]
         | False => destruct H
         end.

Lemma C8_no_bracketing_strike_raises_witness :
  replicate_binary_option spec_table "call" 11000 example_expiry 500
    = Err NoSuitableStrikesError.
Proof.
  apply C8_no_bracketing_strike_raises. left. split; [reflexivity|].
  intros s Hs. vm_compute in Hs. in_list_cases Hs; vm_compute; reflexivity.
Defined.

(** ** C4: distinctness of the selected strikes *)

(** C4 (code bug): with a single call strike 11000 above the target 10000
    and precision 500, both insertion points are 0: the selector returns
    K1 = K2 = 11000 and the weights are 1/0 and -1/0 (numpy gives inf and
    -inf, and a nan total cost). *)
Theorem C4_equal_strikes_zero_width :
  selected_strikes single_call_table "call" 10000 example_expiry 500
    = Ok (11000, 11000) /\
  match replicate_binary_option single_call_table "call" 10000 example_expiry 500 with
  | Ok r => weight (option_1 r) = PInf /\ weight (option_2 r) = NInf /\
            total_cost r = NaN
  | Err _ => False
  end.
Proof.
  split; vm_compute; [reflexivity|].
  repeat split.
Qed.

(** ** C5: weights and total cost *)

Lemma replicate_selected (df : list row) (cls : string) (T : Q) (expiry : Z)
  (p : Q) (r : replication) :
  replicate_binary_option df cls T expiry p = Ok r ->
  exists K1 K2 kind fn,
    selected_strikes df cls T expiry p = Ok (K1, K2) /\
    build_replication (df_subset df expiry cls) kind fn K1 K2 = Ok r /\
    ((cls = "call" /\ kind = "call" /\ fn = "C") \/
     (cls = "put" /\ kind = "put" /\ fn = "P")).
Proof.
  unfold replicate_binary_option, selected_strikes.
  destruct (String.eqb cls "call") eqn:Ec.
  - apply String.eqb_eq in Ec. subst cls.
    destruct (select_call _ _ _) as [[K1 K2]|e]; [|discriminate].
    intros H. exists K1, K2, "call", "C".
    split; [reflexivity|split; [exact H|left; auto]].
  - destruct (String.eqb cls "put") eqn:Ep; [|discriminate].
    apply String.eqb_eq in Ep. subst cls.
    destruct (select_put _ _ _) as [[K1 K2]|e]; [|discriminate].
    intros H. exists K1, K2, "put", "P".
    split; [reflexivity|split; [exact H|right; auto]].
Qed.

Lemma build_replication_spec (df : list row) (kind fn : string) (K1 K2 : Q)
  (r : replication) :
  build_replication df kind fn K1 K2 = Ok r ->
  exists o1 o2,
    first_with_strike df K1 = Ok o1 /\ first_with_strike df K2 = Ok o2 /\
    r = {| option_1 := mkLeg o1.(instrument_name) (f_div (Fin 1) (Fin (K2 - K1)))
                              o1.(last_price);
           option_2 := mkLeg o2.(instrument_name) (f_div (Fin (-1)) (Fin (K2 - K1)))
                              o2.(last_price);
           note := note_text kind fn K1 K2;
           total_cost := f_add (f_mul (f_div (Fin 1) (Fin (K2 - K1))) o1.(last_price))
                               (f_mul (f_div (Fin (-1)) (Fin (K2 - K1))) o2.(last_price)) |}.
Proof.
  unfold build_replication.
  destruct (first_with_strike df K1) as [o1|e]; [|discriminate].
  destruct (first_with_strike df K2) as [o2|e]; [|discriminate].
  intros H. injection H as <-. exists o1, o2. auto.
Qed.

(** C5: for every successful replication with K1 <> K2, weight_1 =
    1/(K2 - K1) and weight_2 = -1/(K2 - K1), so weight_1 + weight_2 = 0;
    the costs are the last prices of the two chosen rows and total_cost is
    weight_1 * cost_1 + weight_2 * cost_2. *)
Theorem C5_weights_and_total_cost (df : list row) (cls : string) (T : Q)
  (expiry : Z) (p K1 K2 : Q) (r : replication) :
  replicate_binary_option df cls T expiry p = Ok r ->
  selected_strikes df cls T expiry p = Ok (K1, K2) ->
  ~ K1 == K2 ->
  exists w1 w2 o1 o2,
    weight (option_1 r) = Fin w1 /\ weight (option_2 r) = Fin w2 /\
    w1 == 1 / (K2 - K1) /\ w2 == -1 / (K2 - K1) /\ w1 + w2 == 0 /\
    first_with_strike (df_subset df expiry cls) K1 = Ok o1 /\
    first_with_strike (df_subset df expiry cls) K2 = Ok o2 /\
    cost (option_1 r) = last_price o1 /\ cost (option_2 r) = last_price o2 /\
    total_cost r = f_add (f_mul (weight (option_1 r)) (cost (option_1 r)))
                         (f_mul (weight (option_2 r)) (cost (option_2 r))).
Proof.
  intros Hr Hs Hne.
  destruct (replicate_selected _ _ _ _ _ _ Hr) as (K1' & K2' & kind & fn & Hs' & Hb & _).
  rewrite Hs in Hs'. injection Hs' as <- <-.
  destruct (build_replication_spec _ _ _ _ _ _ Hb) as (o1 & o2 & H1 & H2 & ->).
  assert (Hd : Qeq_bool (K2 - K1) 0 = false).
  { apply not_true_iff_false. intros H. apply Qeq_bool_iff in H.
    apply Hne. apply (Qplus_inj_r _ _ (- K1)).
    rewrite Qplus_opp_r. rewrite <- H. unfold Qminus. reflexivity. }
  simpl. rewrite Hd.
  exists (1 / (K2 - K1)), (-1 / (K2 - K1)), o1, o2.
  repeat split; auto; try reflexivity.
  unfold Qdiv. rewrite <- Qmult_plus_distr_l.
  setoid_replace (1 + -1) with 0 by reflexivity. apply Qmult_0_l.
Qed.

Lemma C5_weights_and_total_cost_witness :
  exists r, replicate_binary_option spec_table "call" 10000 example_expiry 500 = Ok r /\
  selected_strikes spec_table "call" 10000 example_expiry 500 = Ok (10000, 10500) /\
  ~ (10000 : Q) == 10500 /\
  exists w1 w2 o1 o2,
    weight (option_1 r) = Fin w1 /\ weight (option_2 r) = Fin w2 /\
    w1 == 1 / (10500 - 10000) /\ w2 == -1 / (10500 - 10000) /\ w1 + w2 == 0 /\
    first_with_strike (df_subset spec_table example_expiry "call") 10000 = Ok o1 /\
    first_with_strike (df_subset spec_table example_expiry "call") 10500 = Ok o2 /\
    cost (option_1 r) = last_price o1 /\ cost (option_2 r) = last_price o2 /\
    total_cost r = f_add (f_mul (weight (option_1 r)) (cost (option_1 r)))
                         (f_mul (weight (option_2 r)) (cost (option_2 r))).
Proof.
  assert (Hs : selected_strikes spec_table "call" 10000 example_expiry 500
               = Ok (10000, 10500)) by (vm_compute; reflexivity).
  assert (Hne : ~ (10000 : Q) == 10500) by (intros H; vm_compute in H; discriminate).
  destruct (replicate_binary_option spec_table "call" 10000 example_expiry 500)
    as [r|e] eqn:Hr.
  - exists r. split; [reflexivity|split; [exact Hs|split; [exact Hne|]]].
    exact (C5_weights_and_total_cost _ _ _ _ _ _ _ _ Hr Hs Hne).
  - vm_compute in Hr. discriminate.
Defined.

(** ** C1: the replicated payoff outside the spread *)

(** C1 (code bug): on the spec's put scenario (K1 = 9500, K2 = 10000,
    weights 1/500 and -1/500) the replicated payoff is -1 at the price
    9000 <= K1, where the ideal payoff is 1: long the lower-strike put and
    short the upper-strike put is the negated binary put.  (The call side
    gives 1 above K2 and 0 below K1.) *)
Theorem C1_put_replication_negated :
  match replicate_binary_option spec_table "put" 10000 example_expiry 500 with
  | Ok r =>
      match plot_binary_replication_payoff 10000 "put" (as_dict r)
              (Some [9000; 10500]) with
      | Ok c => ideal c = [1; 0] /\
                Forall2 (fun a b => f_eqb a b = true) (replicated c) [Fin (-1); Fin 0]
      | Err _ => False
      end
  | Err _ => False
  end /\
  match replicate_binary_option spec_table "call" 10000 example_expiry 500 with
  | Ok r =>
      match plot_binary_replication_payoff 10000 "call" (as_dict r)
              (Some [9000; 11000]) with
      | Ok c => ideal c = [0; 1] /\
                Forall2 (fun a b => f_eqb a b = true) (replicated c) [Fin 0; Fin 1]
      | Err _ => False
      end
  | Err _ => False
  end.
Proof.
  split; vm_compute; split; try reflexivity; repeat constructor.
Qed.

(** ** C9: invalid option class *)

Lemma strikes_from_note_as_dict (strike : Q) (r : replication) :
  exists Ks, strikes_from_note strike (as_dict r) = Ok Ks.
Proof.
  unfold strikes_from_note. simpl.
  destruct (findall_paren_num (note r)) as [|g1 [|g2 rest]].
  - eexists. reflexivity.
  - eexists. reflexivity.
  - eexists. reflexivity.
Qed.

(** C9 (as stated, fails): the payoff evaluator reads the note and, when
    it yields fewer than two numbers, the weight of option_1 before it
    checks the class: on an empty result dictionary and the class
    "straddle" it raises a KeyError, not InvalidOptionClassError. *)
Lemma C9_evaluator_reads_note_before_class_check :
  plot_binary_replication_payoff 10000 "straddle" [] None = Err (KeyError "option_1").
Proof. vm_compute. reflexivity. Qed.

(** C9 (amended): for every class other than call and put the
    selector/calculator raises InvalidOptionClassError and returns no
    result; the payoff evaluator raises InvalidOptionClassError whenever
    it could read the strikes (note, or the option_1 weight fallback),
    in particular on every result of the calculator. *)
Theorem C9_invalid_class_raises (df : list row) (T : Q) (expiry : Z) (p : Q)
  (strike : Q) (cls : string) (rep : dict) (pr : option (list Q)) :
  cls <> "call" -> cls <> "put" ->
  replicate_binary_option df cls T expiry p = Err InvalidOptionClassError /\
  ((exists Ks, strikes_from_note strike rep = Ok Ks) ->
   plot_binary_replication_payoff strike cls rep pr = Err InvalidOptionClassError) /\
  (forall r, plot_binary_replication_payoff strike cls (as_dict r) pr
             = Err InvalidOptionClassError).
Proof.
  intros Hc Hp.
  apply String.eqb_neq in Hc, Hp.
  assert (Hplot : forall rep', (exists Ks, strikes_from_note strike rep' = Ok Ks) ->
            plot_binary_replication_payoff strike cls rep' pr = Err InvalidOptionClassError).
  { intros rep' [Ks HK]. unfold plot_binary_replication_payoff.
    rewrite HK, Hc, Hp. reflexivity. }
  split; [|split].
  - unfold replicate_binary_option. rewrite Hc, Hp. reflexivity.
  - apply Hplot.
  - intros r. apply Hplot, strikes_from_note_as_dict.
Qed.

Lemma C9_invalid_class_raises_witness :
  replicate_binary_option spec_table "straddle" 10000 example_expiry 500
    = Err InvalidOptionClassError /\
  ((exists Ks, strikes_from_note 10000 [] = Ok Ks) ->
   plot_binary_replication_payoff 10000 "straddle" [] None = Err InvalidOptionClassError) /\
  (forall r, plot_binary_replication_payoff 10000 "straddle" (as_dict r) None
             = Err InvalidOptionClassError).
Proof.
  apply C9_invalid_class_raises; discriminate.
Defined.

(** ** C10: malformed result dictionaries *)

(** C10: when the note is absent or yields fewer than two parenthesized
    numbers and the weight of option_1 is missing, the payoff evaluator
    raises a KeyError (the missing field) and produces no curve. *)
Theorem C10_missing_weight_raises (strike : Q) (cls : string) (rep : dict)
  (pr : option (list Q)) :
  (dict_get rep "note" = None \/
   exists s, dict_get rep "note" = Some (PyStr s) /\
             (List.length (findall_paren_num s) < 2)%nat) ->
  (dict_get rep "option_1" = None \/
   exists d, dict_get rep "option_1" = Some (PyDict d) /\ dict_get d "weight" = None) ->
  exists k, plot_binary_replication_payoff strike cls rep pr = Err (KeyError k).
Proof.
  intros Hn Hw.
  assert (Hs : exists k, strikes_from_note strike rep = Err (KeyError k)).
  { unfold strikes_from_note.
    assert (Hf : exists note, (match dict_get rep "note" with
                              | None => Ok ""
                              | Some (PyStr s) => Ok s
                              | Some _ => Err TypeError end) = Ok note /\
                            (List.length (findall_paren_num note) < 2)%nat).
    { destruct Hn as [-> | (s & -> & Hl)].
      - exists "". split; [reflexivity|]. simpl. lia.
      - exists s. split; [reflexivity|exact Hl]. }
    destruct Hf as (note & -> & Hl).
    destruct (findall_paren_num note) as [|g1 [|g2 rest]]; simpl in Hl; [| |lia];
    (unfold getitem; destruct Hw as [-> | (d & -> & Hd)];
      [eexists; reflexivity|simpl; unfold getitem; rewrite Hd; eexists; reflexivity]). }
  destruct Hs as [k Hk]. exists k.
  unfold plot_binary_replication_payoff. rewrite Hk. reflexivity.
Qed.

Lemma C10_missing_weight_raises_witness :
  exists k, plot_binary_replication_payoff 10000 "call" [] None = Err (KeyError k).
Proof.
  apply C10_missing_weight_raises; left; reflexivity.
Defined.

(** ** C6: the payoff evaluator *)

Lemma nth_error_seq0 (n i : nat) : (i < n)%nat -> nth_error (seq 0 n) i = Some i.
Proof.
  intros Hi. rewrite nth_error_seq.
  destruct (Nat.ltb_spec i n); [reflexivity|lia].
Qed.

Lemma linspace_500 (a b : Q) :
  List.length (linspace a b 500) = 500%nat /\
  (exists x, nth_error (linspace a b 500) 0 = Some x /\ x == a) /\
  nth_error (linspace a b 500) 499 = Some b /\
  (forall i x y, (i < 499)%nat ->
     nth_error (linspace a b 500) i = Some x ->
     nth_error (linspace a b 500) (S i) = Some y -> y - x == (b - a) / 499).
Proof.
  unfold linspace.
  assert (Hn : forall i, (i < 500)%nat ->
            nth_error (map (fun i => if Nat.ltb 1 500 && Nat.eqb i (500 - 1) then b
                                     else a + inject_Z (Z.of_nat i) *
                                              ((b - a) / inject_Z (Z.of_nat (500 - 1))))
                           (seq 0 500)) i =
            Some (if Nat.eqb i 499 then b
                  else a + inject_Z (Z.of_nat i) * ((b - a) / 499))).
  { intros i Hi. rewrite nth_error_map, nth_error_seq0 by exact Hi. reflexivity. }
  split; [|split; [|split]].
  - now rewrite length_map, length_seq.
  - rewrite Hn by lia. eexists. split; [reflexivity|]. simpl. ring.
  - rewrite Hn by lia. reflexivity.
  - intros i x y Hi Hx Hy.
    rewrite Hn in Hx, Hy by lia.
    injection Hx as <-. injection Hy as <-.
    destruct (Nat.eqb_spec i 499) as [E|E]; [lia|].
    simpl Nat.eqb.
    destruct (Nat.eqb_spec i 498) as [->|E'].
    + simpl. field.
    + change (Z.pos (Pos.of_succ_nat i)) with (Z.of_nat (S i)).
      rewrite Nat2Z.inj_succ, <- Z.add_1_r, inject_Z_plus. ring.
Qed.

Lemma combine_map_same {A B C : Type} (f : A -> B) (g : A -> C) (l : list A) :
  combine (map f l) (map g l) = map (fun x => (f x, g x)) l.
Proof. induction l as [|x r IH]; simpl; [reflexivity|now rewrite IH]. Qed.

(** C6: without an explicit price range the evaluator samples 500 evenly
    spaced prices from 0.5 * strike to 1.5 * strike; the ideal payoff is 1
    where price >= strike (call) or price <= strike (put) and 0 elsewhere;
    the replicated payoff is w1 * max(price - K1, 0) + w2 * max(price - K2, 0)
    for calls, with max(K - price, 0) for puts, elementwise, K1 and K2
    being the strikes the evaluator reads; and on the spec's scenario
    (strike 10000, call, K1 = 10000, K2 = 10500, weights 0.002 and -0.002)
    the replicated value at 10250 is 0.5 and the ideal value is 1. *)
Theorem C6_payoff_evaluator (strike : Q) (cls : string) (rep : dict)
  (pr : option (list Q)) (K1 K2 w1 w2 : f64) :
  (cls = "call" \/ cls = "put") ->
  strikes_from_note strike rep = Ok (K1, K2) ->
  weight_of rep "option_1" = Ok w1 ->
  weight_of rep "option_2" = Ok w2 ->
  (exists c,
     plot_binary_replication_payoff strike cls rep pr = Ok c /\
     prices c = match pr with
                | None => linspace (strike * (1 # 2)) (strike * (3 # 2)) 500
                | Some p => p
                end /\
     ideal c = map (fun S => if (if String.eqb cls "call" then Qle_bool strike S
                                 else Qle_bool S strike) then 1 else 0) (prices c) /\
     replicated c =
       map (fun S => if String.eqb cls "call"
                     then f_add (f_mul w1 (f_max (f_sub (Fin S) K1) (Fin 0)))
                                (f_mul w2 (f_max (f_sub (Fin S) K2) (Fin 0)))
                     else f_add (f_mul w1 (f_max (f_sub K1 (Fin S)) (Fin 0)))
                                (f_mul w2 (f_max (f_sub K2 (Fin S)) (Fin 0))))
           (prices c)) /\
  (let l := linspace (strike * (1 # 2)) (strike * (3 # 2)) 500 in
   List.length l = 500%nat /\
   (exists x, nth_error l 0 = Some x /\ x == strike * (1 # 2)) /\
   nth_error l 499 = Some (strike * (3 # 2)) /\
   (forall i x y, (i < 499)%nat -> nth_error l i = Some x ->
      nth_error l (S i) = Some y -> y - x == strike / 499)) /\
  match replicate_binary_option spec_table "call" 10000 example_expiry 500 with
  | Ok r =>
      f_eqb (weight (option_1 r)) (Fin (2 # 1000)) = true /\
      f_eqb (weight (option_2 r)) (Fin (-2 # 1000)) = true /\
      match strikes_from_note 10000 (as_dict r) with
      | Ok (k1, k2) => f_eqb k1 (Fin 10000) && f_eqb k2 (Fin 10500) = true
      | Err _ => False
      end /\
      match plot_binary_replication_payoff 10000 "call" (as_dict r) (Some [10250]) with
      | Ok c => ideal c = [1] /\
                Forall2 (fun a b => f_eqb a b = true) (replicated c) [Fin (1 # 2)]
      | Err _ => False
      end
  | Err _ => False
  end.
Proof.
  intros Hcls HK H1 H2.
  split; [|split].
  - unfold plot_binary_replication_payoff. rewrite HK. simpl fst; simpl snd.
    destruct Hcls as [-> | ->]; simpl; rewrite H1, H2; eexists;
      (split; [reflexivity|]); simpl;
      (split; [reflexivity|split; [reflexivity|]]);
      rewrite combine_map_same, map_map; reflexivity.
  - destruct (linspace_500 (strike * (1 # 2)) (strike * (3 # 2)))
      as (L & F & E & D).
    split; [exact L|split; [exact F|split; [exact E|]]].
    intros i x y Hi Hx Hy. rewrite (D i x y Hi Hx Hy). field.
  - vm_compute. repeat split; repeat constructor.
Qed.

Lemma C6_payoff_evaluator_witness :
  exists r, replicate_binary_option spec_table "put" 10000 example_expiry 500 = Ok r /\
  exists K1 K2 w1 w2,
    strikes_from_note 10000 (as_dict r) = Ok (K1, K2) /\
    weight_of (as_dict r) "option_1" = Ok w1 /\
    weight_of (as_dict r) "option_2" = Ok w2 /\
    exists c, plot_binary_replication_payoff 10000 "put" (as_dict r) None = Ok c /\
      List.length (prices c) = 500%nat.
Proof.
  destruct (replicate_binary_option spec_table "put" 10000 example_expiry 500)
    as [r|e] eqn:Hr; [|vm_compute in Hr; discriminate].
  exists r. split; [reflexivity|].
  destruct (strikes_from_note_as_dict 10000 r) as [[K1 K2] HK].
  exists K1, K2, (weight (option_1 r)), (weight (option_2 r)).
  split; [exact HK|split; [reflexivity|split; [reflexivity|]]].
  destruct (C6_payoff_evaluator 10000 "put" (as_dict r) None K1 K2
              (weight (option_1 r)) (weight (option_2 r))
              (or_intror eq_refl) HK eq_refl eq_refl)
    as [(c & Hc & Hp & _) [[L _] _]].
  exists c. split; [exact Hc|]. rewrite Hp. exact L.
Defined.

(** ** C7: strikes read back from the note *)

Lemma string_app_assoc (s1 s2 s3 : string) : (s1 ++ s2) ++ s3 = s1 ++ (s2 ++ s3).
Proof. induction s1 as [|c r IH]; simpl; [reflexivity|now rewrite IH]. Qed.

Lemma string_app_nil_r (s : string) : s ++ "" = s.
Proof. induction s as [|c r IH]; simpl; [reflexivity|now rewrite IH]. Qed.

Lemma string_length_app (s1 s2 : string) :
  String.length (s1 ++ s2) = (String.length s1 + String.length s2)%nat.
Proof. induction s1 as [|c r IH]; simpl; [reflexivity|now rewrite IH]. Qed.

Lemma all_digits_app (s1 s2 : string) :
  all_digits (s1 ++ s2) = all_digits s1 && all_digits s2.
Proof.
  induction s1 as [|c r IH]; simpl; [reflexivity|].
  rewrite IH. apply andb_assoc.
Qed.

Lemma digit_char_value (d : N) : (d < 10)%N ->
  is_digit (digit_char d) = true /\ (N_of_ascii (digit_char d) - 48 = d)%N.
Proof.
  intros Hd.
  assert (d = 0 \/ d = 1 \/ d = 2 \/ d = 3 \/ d = 4 \/ d = 5 \/ d = 6 \/
          d = 7 \/ d = 8 \/ d = 9)%N as Hc by lia.
  repeat destruct Hc as [->|Hc]; try subst d; split; reflexivity.
Qed.

Lemma pad_digits_length (w : nat) (x : N) : String.length (pad_digits w x) = w.
Proof.
  revert x. induction w as [|w IH]; intros x; simpl; [reflexivity|].
  rewrite string_length_app, IH. simpl. lia.
Qed.

Lemma pad_digits_all_digits (w : nat) (x : N) : all_digits (pad_digits w x) = true.
Proof.
  revert x. induction w as [|w IH]; intros x; simpl; [reflexivity|].
  rewrite all_digits_app, IH. simpl.
  rewrite (proj1 (digit_char_value (x mod 10)%N ltac:(apply N.mod_lt; lia))).
  reflexivity.
Qed.

Lemma digits_value_app (acc : N) (s1 s2 : string) :
  digits_value acc (s1 ++ s2) = digits_value (digits_value acc s1) s2.
Proof.
  revert acc. induction s1 as [|c r IH]; intros acc; simpl; [reflexivity|apply IH].
Qed.

Lemma digits_value_pad (w : nat) (acc x : N) :
  digits_value acc (pad_digits w x) = (acc * 10 ^ N.of_nat w + x mod 10 ^ N.of_nat w)%N.
Proof.
  revert acc x. induction w as [|w IH]; intros acc x.
  - simpl. rewrite N.mod_1_r. lia.
  - simpl pad_digits. rewrite digits_value_app, IH. cbn [digits_value].
    rewrite (proj2 (digit_char_value (x mod 10)%N ltac:(apply N.mod_lt; lia))).
    rewrite Nat2N.inj_succ, N.pow_succ_r'.
    rewrite (N.Div0.mod_mul_r x 10 (10 ^ N.of_nat w)).
    lia.
Qed.

Lemma ndigits_fuel_bound (fuel : nat) (x : N) :
  (x < 2 ^ N.of_nat fuel)%N -> (x < 10 ^ N.of_nat (ndigits_fuel fuel x))%N.
Proof.
  revert x. induction fuel as [|f IH]; intros x Hx; simpl ndigits_fuel.
  - simpl in *. lia.
  - destruct (N.ltb_spec x 10) as [H10|H10]; [simpl; lia|].
    assert (Hd : (x / 10 < 2 ^ N.of_nat f)%N).
    { apply N.Div0.div_lt_upper_bound.
      rewrite Nat2N.inj_succ, N.pow_succ_r' in Hx. lia. }
    specialize (IH _ Hd).
    rewrite Nat2N.inj_succ, N.pow_succ_r'.
    pose proof (N.mul_succ_div_gt x 10 ltac:(lia)). lia.
Qed.

Lemma str_N_value (x : N) : digits_value 0 (str_N x) = x.
Proof.
  unfold str_N, ndigits. rewrite digits_value_pad.
  rewrite N.mod_small; [lia|].
  apply ndigits_fuel_bound. rewrite N2Nat.id. apply N.size_gt.
Qed.

Lemma str_N_shape (x : N) : all_digits (str_N x) = true /\ str_N x <> "".
Proof.
  split; [apply pad_digits_all_digits|].
  intros H. apply (f_equal String.length) in H.
  unfold str_N in H. rewrite pad_digits_length in H.
  unfold ndigits in H. destruct (N.to_nat (N.size x)); simpl in H;
    [discriminate|destruct (x <? 10)%N; discriminate].
Qed.

Lemma span_digits_app (d s : string) :
  all_digits d = true ->
  match s with String c _ => is_digit c = false | EmptyString => True end ->
  span_digits (d ++ s) = (d, s).
Proof.
  intros Hd Hs. induction d as [|c r IH]; simpl.
  - destruct s as [|c r]; [reflexivity|]. simpl. now rewrite Hs.
  - simpl in Hd. apply andb_true_iff in Hd as [Hc Hr].
    rewrite Hc, (IH Hr). reflexivity.
Qed.

Lemma match_paren_num_group (d1 d2 rest : string) :
  all_digits d1 = true -> d1 <> "" -> all_digits d2 = true ->
  match_paren_num (String "(" (d1 ++ String "." (d2 ++ String ")" rest))) =
  Some (d1 ++ String "." d2, (String.length (d1 ++ String "." d2) + 2)%nat).
Proof.
  intros H1 Hne H2. unfold match_paren_num.
  rewrite (span_digits_app d1) by (simpl; auto || reflexivity).
  destruct (String.eqb_spec d1 "") as [E|_]; [contradiction|].
  simpl.
  rewrite (span_digits_app d2) by (simpl; auto || reflexivity).
  reflexivity.
Qed.

Lemma findall_from_skip (p s : string) (j : nat) :
  findall_from (String.length p + j) (p ++ s) = findall_from j s.
Proof. induction p as [|c r IH]; simpl; [reflexivity|apply IH]. Qed.

Lemma findall_from_inert (p s : string) :
  inert_prefix p = true -> findall_from 0 (p ++ s) = findall_from 0 s.
Proof.
  induction p as [|c r IH]; intros Hp; [reflexivity|].
  simpl in Hp. apply andb_true_iff in Hp as [Hc Hr].
  simpl. rewrite <- (IH Hr).
  destruct (Ascii.eqb c "("%char) eqn:Ec; simpl in Hc |- *; [|reflexivity].
  destruct r as [|c' r']; [discriminate|].
  apply negb_true_iff in Hc. simpl. rewrite Hc. reflexivity.
Qed.

Lemma findall_two_groups (p1 d1 e1 p2 d2 e2 rest : string) :
  inert_prefix p1 = true -> inert_prefix p2 = true ->
  all_digits d1 = true -> d1 <> "" -> all_digits e1 = true ->
  all_digits d2 = true -> d2 <> "" -> all_digits e2 = true ->
  findall_paren_num
    (p1 ++ String "(" ((d1 ++ String "." e1) ++ String ")"
      (p2 ++ String "(" ((d2 ++ String "." e2) ++ String ")" rest)))) =
  (d1 ++ String "." e1) :: (d2 ++ String "." e2) :: findall_from 0 rest.
Proof.
  intros Hp1 Hp2 Hd1 Hn1 He1 Hd2 Hn2 He2. unfold findall_paren_num.
  assert (E : forall x y z, x ++ String "." (y ++ z) = (x ++ String "." y) ++ z)
    by (intros; rewrite string_app_assoc; reflexivity).
  rewrite findall_from_inert by exact Hp1.
  cbn [findall_from]. rewrite !string_app_assoc. cbn [append].
  rewrite match_paren_num_group by assumption. f_equal.
  replace (String.length (d1 ++ String "." e1) + 2 - 1)%nat
    with (String.length (d1 ++ String "." e1) + 1)%nat by lia.
  rewrite (E d1), findall_from_skip. cbn [findall_from].
  rewrite findall_from_inert by exact Hp2.
  cbn [findall_from]. rewrite match_paren_num_group by assumption. f_equal.
  replace (String.length (d2 ++ String "." e2) + 2 - 1)%nat
    with (String.length (d2 ++ String "." e2) + 1)%nat by lia.
  rewrite (E d2), findall_from_skip. reflexivity.
Qed.

Lemma Qdiv_inject_eq (n d m t : Z) :
  d <> 0%Z -> t <> 0%Z -> (n * t = m * d)%Z ->
  inject_Z n / inject_Z d == inject_Z m / inject_Z t.
Proof.
  intros Hd Ht E.
  assert (Hd' : ~ inject_Z d == 0) by (intros H; apply Hd, inject_Z_injective, H).
  assert (Ht' : ~ inject_Z t == 0) by (intros H; apply Ht, inject_Z_injective, H).
  field_simplify_eq; [|split; assumption].
  rewrite <- !inject_Z_mult, E, Z.mul_comm. reflexivity.
Qed.

Lemma float_of_group_fixed (m : N) (k : nat) :
  float_of_group (fixed_repr m k) ==
  inject_Z (Z.of_N m) / inject_Z (10 ^ Z.of_nat k).
Proof.
  unfold fixed_repr, float_of_group. simpl append.
  rewrite (span_digits_app (str_N _)) by (apply str_N_shape || reflexivity).
  rewrite digits_value_app, str_N_value.
  destruct k as [|k].
  - cbn [digits_value String.length]. rewrite N.div_1_r.
    apply Qdiv_inject_eq; [lia|lia|].
    change (N_of_ascii "0"%char - 48)%N with 0%N.
    change (Z.of_nat 1) with 1%Z. change (Z.of_nat 0) with 0%Z.
    rewrite Z.pow_1_r, Z.pow_0_r. lia.
  - rewrite digits_value_pad, pad_digits_length, N.Div0.mod_mod.
    rewrite (N.mul_comm (m / _)), <- N.div_mod by (apply N.pow_nonzero; lia).
    reflexivity.
Qed.

Lemma dec_search_some (n d : Z) (k fuel : nat) (m : Z) (j : nat) :
  dec_search n d k fuel = Some (m, j) ->
  ((n * 10 ^ Z.of_nat j) mod d = 0 /\ m = n * 10 ^ Z.of_nat j / d)%Z.
Proof.
  revert k. induction fuel as [|f IH]; intros k H; simpl in H; [discriminate|].
  destruct (Z.eqb_spec ((n * 10 ^ Z.of_nat k) mod d) 0) as [E|_].
  - injection H as <- <-. auto.
  - exact (IH _ H).
Qed.

Lemma dec_search_found (n d : Z) (k fuel j : nat) :
  (k <= j < k + fuel)%nat -> ((n * 10 ^ Z.of_nat j) mod d = 0)%Z ->
  dec_search n d k fuel <> None.
Proof.
  revert k. induction fuel as [|f IH]; intros k Hj Hm; simpl; [lia|].
  destruct (Z.eqb_spec ((n * 10 ^ Z.of_nat k) mod d) 0) as [E|E]; [discriminate|].
  destruct (Nat.eq_dec j k) as [->|Ne]; [contradiction|].
  apply IH; [lia|exact Hm].
Qed.

Lemma pos_lt_pow_size (p : positive) :
  (Zpos p < 2 ^ Z.of_nat (Pos.size_nat p))%Z.
Proof.
  induction p as [p IH|p IH|]; simpl Pos.size_nat; [| |reflexivity];
    rewrite Nat2Z.inj_succ, Z.pow_succ_r by lia;
    [rewrite Pos2Z.inj_xI|rewrite Pos2Z.inj_xO]; lia.
Qed.

Lemma dec_expansion_binary (q : Q) :
  is_binary_fraction q ->
  exists m k, dec_expansion q = Some (m, k) /\
              q == inject_Z m / inject_Z (10 ^ Z.of_nat k).
Proof.
  intros [e He]. pose proof (Qred_correct q) as Hred.
  unfold dec_expansion. destruct (Qred q) as [n d]. cbn [Qnum Qden] in He |- *.
  assert (Hmod : ((n * 10 ^ Z.of_nat e) mod Zpos d = 0)%Z).
  { rewrite He. replace 10%Z with (2 * 5)%Z by reflexivity.
    rewrite Z.pow_mul_l, Z.mul_assoc, (Z.mul_comm n), <- Z.mul_assoc,
      (Z.mul_comm (2 ^ _)).
    apply Z.mod_mul. apply Z.pow_nonzero; lia. }
  assert (Hsz : (e < S (Pos.size_nat d))%nat).
  { pose proof (pos_lt_pow_size d) as Hlt. rewrite He in Hlt.
    apply Z.pow_lt_mono_r_iff in Hlt; lia. }
  destruct (dec_search n (Zpos d) 0 (S (Pos.size_nat d))) as [[m k]|] eqn:Hs.
  - apply dec_search_some in Hs as [Hm0 Hm]. exists m, k. split; [reflexivity|].
    rewrite <- Hred, Qmake_Qdiv. apply Qdiv_inject_eq; [lia| |].
    + apply Z.pow_nonzero; lia.
    + pose proof (Z.div_mod (n * 10 ^ Z.of_nat k) (Zpos d) ltac:(lia)). lia.
  - exfalso. exact (dec_search_found n (Zpos d) 0 (S (Pos.size_nat d)) e ltac:(lia) Hmod Hs).
Qed.

Lemma py_str_fixed (q : Q) :
  is_binary_fraction q -> repr_is_fixed q ->
  exists m k, (0 <= m)%Z /\ py_str q = fixed_repr (Z.to_N m) k /\
              q == inject_Z m / inject_Z (10 ^ Z.of_nat k).
Proof.
  intros Hb Hf.
  destruct (dec_expansion_binary q Hb) as (m & k & Hd & Hq).
  assert (Hpos : 0 <= q).
  { destruct Hf as [E|[H1 _]]; [rewrite E; discriminate|].
    apply Qle_trans with (1 # 10000); [discriminate|exact H1]. }
  assert (Hm : (0 <= m)%Z).
  { assert (Ht : 0 < inject_Z (10 ^ Z.of_nat k)).
    { change 0 with (inject_Z 0). rewrite <- Zlt_Qlt. apply Z.pow_pos_nonneg; lia. }
    rewrite Zle_Qle. change (inject_Z 0) with 0.
    setoid_replace (inject_Z m) with (q * inject_Z (10 ^ Z.of_nat k))
      by (rewrite Hq; field; apply Qnot_eq_sym, Qlt_not_eq, Ht).
    apply Qmult_le_0_compat; [exact Hpos|apply Qlt_le_weak, Ht]. }
  exists m, k. split; [exact Hm|split; [|exact Hq]].
  unfold py_str. rewrite (proj2 (Qle_bool_iff 0 q) Hpos).
  unfold repr_nonneg. rewrite Hd.
  replace (Qeq_bool q 0 ||
           (Qle_bool (1 # 10000) q && negb (Qle_bool (inject_Z (10 ^ 16)) q)))
    with true; [reflexivity|].
  destruct Hf as [E|[H1 H2]].
  - now rewrite (proj2 (Qeq_bool_iff q 0) E).
  - rewrite (proj2 (Qle_bool_iff _ q) H1).
    destruct (Qle_bool (inject_Z (10 ^ 16)) q) eqn:E2; [|simpl; symmetry; apply orb_true_r].
    apply Qle_bool_iff in E2. exfalso. exact (Qlt_not_le _ _ H2 E2).
Qed.

Lemma py_str_fixed_value (q : Q) :
  is_binary_fraction q -> repr_is_fixed q ->
  exists d e, py_str q = d ++ String "." e /\ all_digits d = true /\ d <> "" /\
              all_digits e = true /\ float_of_group (d ++ String "." e) == q.
Proof.
  intros Hb Hf. destruct (py_str_fixed q Hb Hf) as (m & k & Hm & Hp & Hq).
  exists (str_N (Z.to_N m / 10 ^ N.of_nat k)%N),
    (match k with O => "0" | S _ => pad_digits k (Z.to_N m mod 10 ^ N.of_nat k)%N end).
  split; [exact Hp|]. split; [apply str_N_shape|]. split; [apply str_N_shape|].
  split; [destruct k; [reflexivity|apply pad_digits_all_digits]|].
  change (float_of_group (fixed_repr (Z.to_N m) k) == q).
  rewrite float_of_group_fixed, Z2N.id by exact Hm. symmetry. exact Hq.
Qed.

Lemma note_text_split (kind fn : string) (K1 K2 : Q) :
  note_text kind fn K1 K2 =
  ("Binary " ++ kind ++ " approx by (" ++ fn) ++
  String "(" (py_str K1 ++ String ")"
    ((" - " ++ fn) ++ String "(" (py_str K2 ++ String ")"
       (") / (" ++ py_str K2 ++ " - " ++ py_str K1 ++ ")")))).
Proof. unfold note_text. rewrite !string_app_assoc. reflexivity. Qed.

(** The note is read back whenever both strikes are printed in fixed-point
    notation *)
Lemma note_text_parsed (kind fn : string) (K1 K2 : Q) :
  inert_prefix ("Binary " ++ kind ++ " approx by (" ++ fn) = true ->
  inert_prefix (" - " ++ fn) = true ->
  is_binary_fraction K1 -> is_binary_fraction K2 ->
  repr_is_fixed K1 -> repr_is_fixed K2 ->
  exists g1 g2 rest,
    findall_paren_num (note_text kind fn K1 K2) = g1 :: g2 :: rest /\
    float_of_group g1 == K1 /\ float_of_group g2 == K2.
Proof.
  intros Hp1 Hp2 Hb1 Hb2 Hf1 Hf2.
  destruct (py_str_fixed_value K1 Hb1 Hf1) as (d1 & e1 & E1 & Hd1 & Hn1 & He1 & Hv1).
  destruct (py_str_fixed_value K2 Hb2 Hf2) as (d2 & e2 & E2 & Hd2 & Hn2 & He2 & Hv2).
  rewrite note_text_split, E1, E2, findall_two_groups by assumption.
  do 3 eexists. split; [reflexivity|split; assumption].
Qed.

(** [C7] (counterexample): a strike of [1e16] is printed [1e+16]; the
    pattern finds no number in the note and the evaluator falls back to the
    weight, reading [K1 = 9e15] instead of the selected [1e16]. *)
Lemma C7_exponent_notation_not_recovered :
  selected_strikes large_strike_table "call" (inject_Z (9 * 10 ^ 15))
    example_expiry (inject_Z (10 ^ 16)) =
    Ok (inject_Z (10 ^ 16), inject_Z (2 * 10 ^ 16)) /\
  exists r,
    replicate_binary_option large_strike_table "call" (inject_Z (9 * 10 ^ 15))
      example_expiry (inject_Z (10 ^ 16)) = Ok r /\
    note r = "Binary call approx by (C(1e+16) - C(2e+16)) / (2e+16 - 1e+16)" /\
    findall_paren_num (note r) = [] /\
    strikes_from_note (inject_Z (9 * 10 ^ 15)) (as_dict r) =
      Ok (Fin (inject_Z (9 * 10 ^ 15)), Fin (inject_Z (19 * 10 ^ 15))) /\
    ~ inject_Z (9 * 10 ^ 15) == inject_Z (10 ^ 16).
Proof.
  split; [vm_compute; reflexivity|].
  destruct (replicate_binary_option large_strike_table "call"
              (inject_Z (9 * 10 ^ 15)) example_expiry (inject_Z (10 ^ 16)))
    as [r|e] eqn:Hr; [|vm_compute in Hr; discriminate].
  vm_compute in Hr. injection Hr as <-. eexists. split; [reflexivity|].
  split; [vm_compute; reflexivity|].
  split; [vm_compute; reflexivity|].
  split; [vm_compute; reflexivity|discriminate].
Qed.

(** [C7] (amended): for every successful replication whose two selected
    strikes (values of floats) are [0] or lie in [[1e-4, 1e16)], where
    [repr] uses fixed-point notation, the [K1] and [K2] the payoff evaluator
    extracts from the note equal the selected ones. *)
Theorem C7_note_roundtrip_fixed_notation (df : list row) (cls : string)
  (T : Q) (expiry : Z) (p : Q) (r : replication) (K1 K2 : Q) :
  replicate_binary_option df cls T expiry p = Ok r ->
  selected_strikes df cls T expiry p = Ok (K1, K2) ->
  is_binary_fraction K1 -> is_binary_fraction K2 ->
  repr_is_fixed K1 -> repr_is_fixed K2 ->
  exists k1 k2, strikes_from_note T (as_dict r) = Ok (Fin k1, Fin k2) /\
                k1 == K1 /\ k2 == K2.
Proof.
  intros Hr Hs Hb1 Hb2 Hf1 Hf2.
  destruct (replicate_selected _ _ _ _ _ _ Hr)
    as (K1' & K2' & kind & fn & Hs' & Hb & Hcls).
  rewrite Hs in Hs'. injection Hs' as <- <-.
  destruct (build_replication_spec _ _ _ _ _ _ Hb) as (o1 & o2 & _ & _ & ->).
  assert (Hp : inert_prefix ("Binary " ++ kind ++ " approx by (" ++ fn) = true /\
               inert_prefix (" - " ++ fn) = true)
    by (destruct Hcls as [(_ & -> & ->)|(_ & -> & ->)]; split; reflexivity).
  destruct Hp as [Hp1 Hp2].
  destruct (note_text_parsed kind fn K1 K2 Hp1 Hp2 Hb1 Hb2 Hf1 Hf2)
    as (g1 & g2 & rest & Hfa & Hg1 & Hg2).
  unfold strikes_from_note. simpl dict_get. cbn beta iota.
  rewrite Hfa. exists (float_of_group g1), (float_of_group g2).
  split; [reflexivity|split; assumption].
Qed.

Lemma C7_note_roundtrip_fixed_notation_witness :
  exists r,
    replicate_binary_option spec_table "call" 10000 example_expiry 500 = Ok r /\
    exists k1 k2, strikes_from_note 10000 (as_dict r) = Ok (Fin k1, Fin k2) /\
                  k1 == 10000 /\ k2 == 10500.
Proof.
  destruct (replicate_binary_option spec_table "call" 10000 example_expiry 500)
    as [r|e] eqn:Hr; [|vm_compute in Hr; discriminate].
  exists r. split; [reflexivity|].
  apply (C7_note_roundtrip_fixed_notation spec_table "call" 10000 example_expiry
           500 r 10000 10500 Hr).
  - vm_compute. reflexivity.
  - exists 0%nat. reflexivity.
  - exists 0%nat. reflexivity.
  - right. split; [unfold Qle; simpl; lia|unfold Qlt; simpl; lia].
  - right. split; [unfold Qle; simpl; lia|unfold Qlt; simpl; lia].
Defined.

(** ** Further properties of the replication and of the evaluator *)

Lemma strikes_from_note_roundtrip (df : list row) (cls : string)
  (T : Q) (expiry : Z) (p : Q) (r : replication) (K1 K2 : Q) :
  replicate_binary_option df cls T expiry p = Ok r ->
  selected_strikes df cls T expiry p = Ok (K1, K2) ->
  is_binary_fraction K1 -> is_binary_fraction K2 ->
  repr_is_fixed K1 -> repr_is_fixed K2 ->
  exists k1 k2, strikes_from_note T (as_dict r) = Ok (Fin k1, Fin k2) /\
                k1 == K1 /\ k2 == K2.
Proof.
  intros Hr Hs Hb1 Hb2 Hf1 Hf2.
  destruct (replicate_selected _ _ _ _ _ _ Hr)
    as (K1' & K2' & kind & fn & Hs' & Hb & Hcls).
  rewrite Hs in Hs'. injection Hs' as <- <-.
  destruct (build_replication_spec _ _ _ _ _ _ Hb) as (o1 & o2 & _ & _ & ->).
  assert (Hp : inert_prefix ("Binary " ++ kind ++ " approx by (" ++ fn) = true /\
               inert_prefix (" - " ++ fn) = true)
    by (destruct Hcls as [(_ & -> & ->)|(_ & -> & ->)]; split; reflexivity).
  destruct Hp as [Hp1 Hp2].
  destruct (note_text_parsed kind fn K1 K2 Hp1 Hp2 Hb1 Hb2 Hf1 Hf2)
    as (g1 & g2 & rest & Hfa & Hg1 & Hg2).
  unfold strikes_from_note. simpl dict_get. cbn beta iota.
  rewrite Hfa. exists (float_of_group g1), (float_of_group g2).
  split; [reflexivity|split; assumption].
Qed.

Lemma Forall2_map_self {A B : Type} (P : A -> B -> Prop) (f : A -> B) (l : list A) :
  (forall x, In x l -> P x (f x)) -> Forall2 P l (map f l).
Proof.
  induction l as [|x r IH]; intros H; simpl; constructor.
  - apply H. left. reflexivity.
  - apply IH. intros y Hy. apply H. right. exact Hy.
Qed.

Lemma Qle_bool_shift (S k K : Q) : k == K -> Qle_bool (S + - k) 0 = Qle_bool S K.
Proof.
  intros E. destruct (Qle_bool S K) eqn:B.
  - apply Qle_bool_iff in B. apply Qle_bool_iff. rewrite E. lra.
  - destruct (Qle_bool (S + - k) 0) eqn:B'; [|reflexivity].
    apply Qle_bool_iff in B'. rewrite E in B'.
    assert (H : S <= K) by lra. apply Qle_bool_iff in H. congruence.
Qed.

Lemma Qle_bool_shift' (S k K : Q) : k == K -> Qle_bool (k + - S) 0 = Qle_bool K S.
Proof.
  intros E. destruct (Qle_bool K S) eqn:B.
  - apply Qle_bool_iff in B. apply Qle_bool_iff. rewrite E. lra.
  - destruct (Qle_bool (k + - S) 0) eqn:B'; [|reflexivity].
    apply Qle_bool_iff in B'. rewrite E in B'.
    assert (H : K <= S) by lra. apply Qle_bool_iff in H. congruence.
Qed.

Lemma Qle_bool_false (a b : Q) : Qle_bool a b = false -> b < a.
Proof.
  intros H. apply Qnot_le_lt. intros H'. apply Qle_bool_iff in H'. congruence.
Qed.

Lemma call_spread_value (S k1 k2 K1 K2 : Q) :
  k1 == K1 -> k2 == K2 -> K1 < K2 ->
  1 / (K2 - K1) * (if Qle_bool (S + - k1) 0 then 0 else S + - k1) +
  -1 / (K2 - K1) * (if Qle_bool (S + - k2) 0 then 0 else S + - k2) ==
  call_ramp K1 K2 S.
Proof.
  intros E1 E2 H. unfold call_ramp.
  rewrite (Qle_bool_shift S k1 K1 E1), (Qle_bool_shift S k2 K2 E2).
  assert (Hd : ~ K2 - K1 == 0) by (intros Z; lra).
  destruct (Qle_bool S K1) eqn:B1.
  - apply Qle_bool_iff in B1.
    assert (B2 : Qle_bool S K2 = true) by (apply Qle_bool_iff; lra).
    rewrite B2. field. exact Hd.
  - apply Qle_bool_false in B1.
    destruct (Qle_bool K2 S) eqn:B3.
    + apply Qle_bool_iff in B3.
      destruct (Qle_bool S K2) eqn:B2.
      * apply Qle_bool_iff in B2. assert (S == K2) by lra.
        rewrite E1. setoid_replace S with K2 by assumption. field. exact Hd.
      * rewrite E1, E2. field. exact Hd.
    + apply Qle_bool_false in B3.
      assert (B2 : Qle_bool S K2 = true) by (apply Qle_bool_iff; lra).
      rewrite B2, E1. field. exact Hd.
Qed.

Lemma put_spread_value (S k1 k2 K1 K2 : Q) :
  k1 == K1 -> k2 == K2 -> K1 < K2 ->
  1 / (K2 - K1) * (if Qle_bool (k1 + - S) 0 then 0 else k1 + - S) +
  -1 / (K2 - K1) * (if Qle_bool (k2 + - S) 0 then 0 else k2 + - S) ==
  put_ramp K1 K2 S.
Proof.
  intros E1 E2 H. unfold put_ramp.
  rewrite (Qle_bool_shift' S k1 K1 E1), (Qle_bool_shift' S k2 K2 E2).
  assert (Hd : ~ K2 - K1 == 0) by (intros Z; lra).
  destruct (Qle_bool S K1) eqn:B1.
  - apply Qle_bool_iff in B1.
    destruct (Qle_bool K1 S) eqn:B0.
    + apply Qle_bool_iff in B0. assert (S == K1) by lra.
      assert (B2 : Qle_bool K2 S = false)
        by (destruct (Qle_bool K2 S) eqn:B; [apply Qle_bool_iff in B; lra|reflexivity]).
      rewrite B2, E2. setoid_replace S with K1 by assumption. field. exact Hd.
    + assert (B2 : Qle_bool K2 S = false)
        by (destruct (Qle_bool K2 S) eqn:B; [apply Qle_bool_iff in B; lra|reflexivity]).
      rewrite B2, E1, E2. field. exact Hd.
  - apply Qle_bool_false in B1.
    assert (B0 : Qle_bool K1 S = true) by (apply Qle_bool_iff; lra).
    rewrite B0.
    destruct (Qle_bool K2 S) eqn:B3.
    + field. exact Hd.
    + rewrite E2. field. exact Hd.
Qed.

Lemma replication_weights (df : list row) (cls : string) (T : Q) (expiry : Z)
  (p : Q) (r : replication) (K1 K2 : Q) :
  replicate_binary_option df cls T expiry p = Ok r ->
  selected_strikes df cls T expiry p = Ok (K1, K2) ->
  ~ K2 - K1 == 0 ->
  weight_of (as_dict r) "option_1" = Ok (Fin (1 / (K2 - K1))) /\
  weight_of (as_dict r) "option_2" = Ok (Fin (-1 / (K2 - K1))).
Proof.
  intros Hr Hs Hd.
  destruct (replicate_selected _ _ _ _ _ _ Hr)
    as (K1' & K2' & kind & fn & Hs' & Hb & _).
  rewrite Hs in Hs'. injection Hs' as <- <-.
  destruct (build_replication_spec _ _ _ _ _ _ Hb) as (o1 & o2 & _ & _ & ->).
  unfold weight_of, f_div. simpl.
  destruct (Qeq_bool (K2 - K1) 0) eqn:E; [|split; reflexivity].
  apply Qeq_bool_iff in E. contradiction.
Qed.

Lemma plot_spread (T : Q) (cls : string) (rep : dict) (pr : option (list Q))
  (k1 k2 w1 w2 : Q) :
  (cls = "call" \/ cls = "put") ->
  strikes_from_note T rep = Ok (Fin k1, Fin k2) ->
  weight_of rep "option_1" = Ok (Fin w1) ->
  weight_of rep "option_2" = Ok (Fin w2) ->
  exists c,
    plot_binary_replication_payoff T cls rep pr = Ok c /\
    prices c = match pr with
               | None => linspace (T * (1 # 2)) (T * (3 # 2)) 500
               | Some l => l
               end /\
    replicated c =
      map (fun S => if String.eqb cls "call"
            then Fin (w1 * (if Qle_bool (S + - k1) 0 then 0 else S + - k1) +
                      w2 * (if Qle_bool (S + - k2) 0 then 0 else S + - k2))
            else Fin (w1 * (if Qle_bool (k1 + - S) 0 then 0 else k1 + - S) +
                      w2 * (if Qle_bool (k2 + - S) 0 then 0 else k2 + - S)))
        (prices c).
Proof.
  intros Hcls HK H1 H2.
  unfold plot_binary_replication_payoff. rewrite HK. simpl fst; simpl snd.
  destruct Hcls as [-> | ->]; simpl; rewrite H1, H2; eexists;
    (split; [reflexivity|]); simpl; (split; [reflexivity|]);
    rewrite combine_map_same, map_map; apply map_ext; intros S;
    unfold call_payoff, put_payoff, f_max, f_sub, f_neg, f_add, f_le;
    [destruct (Qle_bool (S + - k1) 0), (Qle_bool (S + - k2) 0)
    |destruct (Qle_bool (k1 + - S) 0), (Qle_bool (k2 + - S) 0)]; reflexivity.
Qed.

(** The replicated curve of a call replication: on every price grid, when
    the two selected strikes differ and are printed in fixed-point notation,
    the evaluator draws the call spread [0] below [K1], [1] above [K2] and the
    straight line between them. *)
Theorem replicated_call_curve (df : list row) (T : Q) (expiry : Z) (p : Q)
  (r : replication) (K1 K2 : Q) (pr : option (list Q)) :
  replicate_binary_option df "call" T expiry p = Ok r ->
  selected_strikes df "call" T expiry p = Ok (K1, K2) ->
  K1 < K2 ->
  is_binary_fraction K1 -> is_binary_fraction K2 ->
  repr_is_fixed K1 -> repr_is_fixed K2 ->
  exists c,
    plot_binary_replication_payoff T "call" (as_dict r) pr = Ok c /\
    Forall2 (fun S v => exists x, v = Fin x /\ x == call_ramp K1 K2 S)
      (prices c) (replicated c).
Proof.
  intros Hr Hs Hlt Hb1 Hb2 Hf1 Hf2.
  destruct (strikes_from_note_roundtrip _ _ _ _ _ _ _ _ Hr Hs Hb1 Hb2 Hf1 Hf2)
    as (k1 & k2 & HK & E1 & E2).
  assert (Hd : ~ K2 - K1 == 0) by (intros Z; lra).
  destruct (replication_weights _ _ _ _ _ _ _ _ Hr Hs Hd) as [H1 H2].
  destruct (plot_spread T "call" (as_dict r) pr k1 k2 _ _ (or_introl eq_refl)
              HK H1 H2) as (c & Hc & _ & Hrep).
  exists c. split; [exact Hc|]. rewrite Hrep. simpl.
  apply Forall2_map_self. intros S _. eexists. split; [reflexivity|].
  apply call_spread_value; assumption.
Qed.

Lemma replicated_call_curve_witness :
  exists r, replicate_binary_option spec_table "call" 10000 example_expiry 500 = Ok r /\
  exists c,
    plot_binary_replication_payoff 10000 "call" (as_dict r) None = Ok c /\
    Forall2 (fun S v => exists x, v = Fin x /\ x == call_ramp 10000 10500 S)
      (prices c) (replicated c).
Proof.
  destruct (replicate_binary_option spec_table "call" 10000 example_expiry 500)
    as [r|e] eqn:Hr; [|vm_compute in Hr; discriminate].
  exists r. split; [reflexivity|].
  apply (replicated_call_curve spec_table 10000 example_expiry 500 r 10000 10500
           None Hr).
  - vm_compute. reflexivity.
  - unfold Qlt. simpl. lia.
  - exists 0%nat. reflexivity.
  - exists 0%nat. reflexivity.
  - right. split; [unfold Qle; simpl; lia|unfold Qlt; simpl; lia].
  - right. split; [unfold Qle; simpl; lia|unfold Qlt; simpl; lia].
Defined.

(** The replicated curve of a put replication is the negated put spread:
    [-1] below [K1], [0] above [K2] and the straight line between them. *)
Theorem replicated_put_curve (df : list row) (T : Q) (expiry : Z) (p : Q)
  (r : replication) (K1 K2 : Q) (pr : option (list Q)) :
  replicate_binary_option df "put" T expiry p = Ok r ->
  selected_strikes df "put" T expiry p = Ok (K1, K2) ->
  K1 < K2 ->
  is_binary_fraction K1 -> is_binary_fraction K2 ->
  repr_is_fixed K1 -> repr_is_fixed K2 ->
  exists c,
    plot_binary_replication_payoff T "put" (as_dict r) pr = Ok c /\
    Forall2 (fun S v => exists x, v = Fin x /\ x == put_ramp K1 K2 S)
      (prices c) (replicated c).
Proof.
  intros Hr Hs Hlt Hb1 Hb2 Hf1 Hf2.
  destruct (strikes_from_note_roundtrip _ _ _ _ _ _ _ _ Hr Hs Hb1 Hb2 Hf1 Hf2)
    as (k1 & k2 & HK & E1 & E2).
  assert (Hd : ~ K2 - K1 == 0) by (intros Z; lra).
  destruct (replication_weights _ _ _ _ _ _ _ _ Hr Hs Hd) as [H1 H2].
  destruct (plot_spread T "put" (as_dict r) pr k1 k2 _ _ (or_intror eq_refl)
              HK H1 H2) as (c & Hc & _ & Hrep).
  exists c. split; [exact Hc|]. rewrite Hrep. simpl.
  apply Forall2_map_self. intros S _. eexists. split; [reflexivity|].
  apply put_spread_value; assumption.
Qed.

Lemma replicated_put_curve_witness :
  exists r, replicate_binary_option spec_table "put" 10000 example_expiry 500 = Ok r /\
  exists c,
    plot_binary_replication_payoff 10000 "put" (as_dict r) None = Ok c /\
    Forall2 (fun S v => exists x, v = Fin x /\ x == put_ramp 9500 10000 S)
      (prices c) (replicated c).
Proof.
  destruct (replicate_binary_option spec_table "put" 10000 example_expiry 500)
    as [r|e] eqn:Hr; [|vm_compute in Hr; discriminate].
  exists r. split; [reflexivity|].
  apply (replicated_put_curve spec_table 10000 example_expiry 500 r 9500 10000
           None Hr).
  - vm_compute. reflexivity.
  - unfold Qlt. simpl. lia.
  - exists 0%nat. reflexivity.
  - exists 0%nat. reflexivity.
  - right. split; [unfold Qle; simpl; lia|unfold Qlt; simpl; lia].
  - right. split; [unfold Qle; simpl; lia|unfold Qlt; simpl; lia].
Defined.

Lemma filter_all_true {A : Type} (f : A -> bool) (l : list A) :
  (forall x, In x l -> f x = true) -> filter f l = l.
Proof.
  induction l as [|x r IH]; intros H; simpl; [reflexivity|].
  rewrite (H x (or_introl eq_refl)), IH; [reflexivity|].
  intros y Hy. apply H. right. exact Hy.
Qed.

Lemma df_subset_idem (df : list row) (expiry : Z) (cls : string) :
  df_subset (df_subset df expiry cls) expiry cls = df_subset df expiry cls.
Proof.
  unfold df_subset at 1.
  rewrite (filter_all_true (fun r => Z.eqb (expiration_timestamp r) expiry)).
  - apply filter_all_true. intros x Hx. unfold df_subset in Hx.
    apply filter_In in Hx. apply Hx.
  - intros x Hx. unfold df_subset in Hx.
    apply filter_In in Hx as [Hx _]. apply filter_In in Hx. apply Hx.
Qed.

(** [replicate_binary_option] reads only the rows of the requested
    expiration and class: the result (or the exception) is the same on the
    table restricted to those rows, for every class argument. *)
Theorem replicate_uses_only_subset (df : list row) (cls : string) (T : Q)
  (expiry : Z) (p : Q) :
  replicate_binary_option df cls T expiry p =
  replicate_binary_option (df_subset df expiry cls) cls T expiry p.
Proof.
  unfold replicate_binary_option.
  destruct (String.eqb_spec cls "call") as [->|_].
  - rewrite df_subset_idem. reflexivity.
  - destruct (String.eqb_spec cls "put") as [->|_]; [|reflexivity].
    rewrite df_subset_idem. reflexivity.
Qed.

(** When the note yields fewer than two numbers, the evaluator's fallback
    places [K1] at the target strike and keeps the width of the selected
    spread: [K2 = strike + (K2 - K1)] of the selected strikes. *)
Theorem fallback_keeps_width (df : list row) (cls : string) (T : Q)
  (expiry : Z) (p : Q) (r : replication) (K1 K2 : Q) :
  replicate_binary_option df cls T expiry p = Ok r ->
  selected_strikes df cls T expiry p = Ok (K1, K2) ->
  ~ K1 == K2 ->
  (List.length (findall_paren_num (note r)) < 2)%nat ->
  exists k1 k2, strikes_from_note T (as_dict r) = Ok (Fin k1, Fin k2) /\
                k1 == T /\ k2 == T + (K2 - K1).
Proof.
  intros Hr Hs Hne Hlen.
  assert (Hd : ~ K2 - K1 == 0) by (intros Z; apply Hne; lra).
  destruct (replicate_selected _ _ _ _ _ _ Hr)
    as (K1' & K2' & kind & fn & Hs' & Hb & _).
  rewrite Hs in Hs'. injection Hs' as <- <-.
  destruct (build_replication_spec _ _ _ _ _ _ Hb) as (o1 & o2 & _ & _ & ->).
  simpl note in Hlen.
  assert (Hw : ~ 1 / (K2 - K1) == 0).
  { intros Z. apply Hd. setoid_replace (K2 - K1) with (1 / (1 / (K2 - K1)))
      by (field; exact Hd). rewrite Z. reflexivity. }
  unfold strikes_from_note. simpl dict_get. cbn beta iota.
  destruct (findall_paren_num (note_text kind fn K1 K2)) as [|g1 [|g2 rest]];
    [| |simpl in Hlen; lia];
  simpl; unfold f_div;
  (destruct (Qeq_bool (K2 - K1) 0) eqn:E1;
     [apply Qeq_bool_iff in E1; contradiction|]);
  (destruct (Qeq_bool (1 / (K2 - K1)) 0) eqn:E2;
     [apply Qeq_bool_iff in E2; contradiction|]);
  simpl; eexists; eexists; (split; [reflexivity|]);
  (split; [reflexivity|]); field; exact Hd.
Qed.

Lemma fallback_keeps_width_witness :
  exists r,
    replicate_binary_option large_strike_table "call" (inject_Z (9 * 10 ^ 15))
      example_expiry (inject_Z (10 ^ 16)) = Ok r /\
    exists k1 k2,
      strikes_from_note (inject_Z (9 * 10 ^ 15)) (as_dict r) = Ok (Fin k1, Fin k2) /\
      k1 == inject_Z (9 * 10 ^ 15) /\
      k2 == inject_Z (9 * 10 ^ 15) + (inject_Z (2 * 10 ^ 16) - inject_Z (10 ^ 16)).
Proof.
  destruct (replicate_binary_option large_strike_table "call"
              (inject_Z (9 * 10 ^ 15)) example_expiry (inject_Z (10 ^ 16)))
    as [r|e] eqn:Hr; [|vm_compute in Hr; discriminate].
  exists r. split; [reflexivity|].
  apply (fallback_keeps_width large_strike_table "call" (inject_Z (9 * 10 ^ 15))
           example_expiry (inject_Z (10 ^ 16)) r (inject_Z (10 ^ 16))
           (inject_Z (2 * 10 ^ 16)) Hr).
  - vm_compute. reflexivity.
  - vm_compute. discriminate.
  - vm_compute in Hr. injection Hr as <-. vm_compute. lia.
Defined.

(** ** [utils.filter_instruments] *)

Lemma filter_get_objs (l : list jdict) (k : string) (x : f64) :
  filter_get (map JObj l) k x = Done (map JObj (filter (fun d => get_eq d k x) l)).
Proof.
  induction l as [|d r IH]; simpl; [reflexivity|].
  rewrite IH. destruct (get_eq d k x); reflexivity.
Qed.

Lemma filter_andb {A : Type} (f g : A -> bool) (l : list A) :
  filter g (filter f l) = filter (fun a => f a && g a) l.
Proof.
  induction l as [|a r IH]; simpl; [reflexivity|].
  destruct (f a); simpl; [destruct (g a); simpl; rewrite IH; reflexivity|exact IH].
Qed.

(** On a list of dicts, [filter_instruments] keeps, in their order, exactly
    the instruments whose [strike] equals the strike filter (when given)
    and whose [expiration_timestamp] equals the expiration filter (when
    given); a missing or non-numeric field never equals a filter. *)
Theorem filter_instruments_spec (l : list jdict) (strike expiration_timestamp : option f64) :
  filter_instruments (JList (map JObj l)) strike expiration_timestamp =
  Done (JList (map JObj
    (filter (fun d => match strike with None => true
                      | Some x => get_eq d "strike" x end &&
                      match expiration_timestamp with None => true
                      | Some x => get_eq d "expiration_timestamp" x end) l))).
Proof.
  unfold filter_instruments.
  destruct strike as [x|], expiration_timestamp as [y|]; simpl;
    rewrite ?filter_get_objs; simpl; rewrite ?filter_get_objs.
  - rewrite filter_andb. reflexivity.
  - f_equal. f_equal. f_equal. apply filter_ext. intros d. symmetry. apply andb_true_r.
  - reflexivity.
  - rewrite filter_all_true; [reflexivity|]. intros d _. reflexivity.
Qed.

(** A [nan] strike filter equals no strike: the result is empty, whatever
    the instruments and the expiration filter. *)
Theorem filter_instruments_nan_strike (l : list jdict) (expiration_timestamp : option f64) :
  filter_instruments (JList (map JObj l)) (Some NaN) expiration_timestamp = Done (JList []).
Proof.
  unfold filter_instruments. simpl. rewrite filter_get_objs.
  rewrite (filter_ext _ (fun _ => false)).
  - assert (E : forall l' : list jdict, filter (fun _ => false) l' = []).
    { induction l' as [|d r IH]; [reflexivity|exact IH]. }
    rewrite E. destruct expiration_timestamp; reflexivity.
  - intros d. unfold get_eq. destruct (jget d "strike") as [v|]; [|reflexivity].
    destruct (json_number v) as [[]|]; reflexivity.
Qed.

(** ** [utils.json_to_dataframe] *)

Lemma existsb_eqb_In (k : string) (l : list string) :
  existsb (String.eqb k) l = true <-> In k l.
Proof.
  rewrite existsb_exists. split.
  - intros (y & Hy & E). apply String.eqb_eq in E. subst. exact Hy.
  - intros H. exists k. split; [exact H|apply String.eqb_refl].
Qed.

Lemma jget_In (d : jdict) (k : string) : jget d k <> None <-> In k (map fst d).
Proof.
  induction d as [|[k' v] r IH]; simpl; [tauto|].
  destruct (String.eqb_spec k k') as [->|Ne].
  - split; [left; reflexivity|discriminate].
  - rewrite IH. split; [right; assumption|intros [E|H]; [congruence|exact H]].
Qed.

Lemma add_columns_spec (cols : list string) (d : jdict) :
  NoDup cols ->
  NoDup (add_columns cols d) /\
  (forall k, In k (add_columns cols d) <-> In k cols \/ In k (map fst d)).
Proof.
  unfold add_columns. revert cols.
  induction d as [|[k' v] r IH]; intros cols Hnd; simpl.
  - split; [exact Hnd|tauto].
  - destruct (existsb (String.eqb k') cols) eqn:E.
    + apply existsb_eqb_In in E.
      destruct (IH cols Hnd) as [H1 H2]. split; [exact H1|].
      intros k. rewrite H2. split; [tauto|].
      intros [H|[<-|H]]; auto.
    + assert (Hn : ~ In k' cols)
        by (intros H; apply existsb_eqb_In in H; congruence).
      assert (Hnd' : NoDup (cols ++ [k'])%list).
      { apply NoDup_app; [exact Hnd|constructor; [tauto|constructor]|].
        intros y Hy [<-|[]]. contradiction. }
      destruct (IH _ Hnd') as [H1 H2]. split; [exact H1|].
      intros k. rewrite H2, in_app_iff. simpl. tauto.
Qed.

Lemma columns_of_spec (l : list jdict) :
  NoDup (columns_of l) /\
  (forall k, In k (columns_of l) <-> exists d, In d l /\ jget d k <> None).
Proof.
  unfold columns_of.
  assert (G : forall acc, NoDup acc ->
    NoDup (fold_left add_columns l acc) /\
    (forall k, In k (fold_left add_columns l acc) <->
               In k acc \/ exists d, In d l /\ jget d k <> None)).
  { induction l as [|d r IH]; intros acc Hnd; simpl.
    - split; [exact Hnd|]. intros k. split; [tauto|].
      intros [H|(d & [] & _)]. exact H.
    - destruct (add_columns_spec acc d Hnd) as [H1 H2].
      destruct (IH _ H1) as [H3 H4]. split; [exact H3|].
      intros k. rewrite H4, H2, <- jget_In. split.
      + intros [[H|H]|(d' & Hd' & H)]; [left; exact H|right; exists d; auto|].
        right. exists d'. auto.
      + intros [H|(d' & [<-|Hd'] & H)]; [left; left; exact H|left; right; exact H|].
        right. exists d'. auto. }
  destruct (G [] (NoDup_nil _)) as [H1 H2]. split; [exact H1|].
  intros k. rewrite H2. simpl. tauto.
Qed.

(** [json_to_dataframe] raises exactly when the records carry no key at all:
    "Input JSON data is empty" for no record, "Converted DataFrame is empty"
    for records that are all empty dicts. *)
Theorem json_to_dataframe_raises (l : list jdict) :
  (json_to_dataframe l = Raise (PyError (ValueError "Input JSON data is empty")) <->
   l = []) /\
  (json_to_dataframe l = Raise (PyError (ValueError "Converted DataFrame is empty")) <->
   l <> [] /\ Forall (fun d => d = []) l).
Proof.
  destruct (columns_of_spec l) as [_ Hc].
  assert (Hcols : columns_of l = [] <-> Forall (fun d => d = []) l).
  { rewrite Forall_forall. split.
    - intros E d Hd. destruct d as [|[k v] r]; [reflexivity|exfalso].
      assert (H : In k (columns_of l)).
      { apply Hc. exists ((k, v) :: r). split; [exact Hd|]. simpl.
        rewrite String.eqb_refl. discriminate. }
      rewrite E in H. destruct H.
    - intros H. destruct (columns_of l) as [|k r] eqn:E; [reflexivity|exfalso].
      assert (Hk : In k (k :: r)) by (left; reflexivity).
      apply Hc in Hk as (d & Hd & Hg). rewrite (H d Hd) in Hg. apply Hg. reflexivity. }
  unfold json_to_dataframe.
  destruct l as [|d r].
  - split; [split; reflexivity|]. split; [discriminate|]. intros [H _]. congruence.
  - unfold frame_empty, pd_DataFrame. simpl columns; simpl values.
    destruct (columns_of (d :: r)) as [|k ks] eqn:E.
    + split; [split; [discriminate|discriminate]|].
      split; [intros _; split; [discriminate|apply Hcols; reflexivity]|reflexivity].
    + split; [split; [discriminate|discriminate]|].
      split; [discriminate|]. intros [_ H]. apply Hcols in H. discriminate.
Qed.

(** A frame built by [json_to_dataframe] has one row per record; its
    columns are the keys found in the records, each once; and the row of a
    record holds, per column, the record's value or a missing value. *)
Theorem json_to_dataframe_shape (l : list jdict) (f : frame) :
  json_to_dataframe l = Done f ->
  List.length (values f) = List.length l /\
  NoDup (columns f) /\
  (forall k, In k (columns f) <-> exists d, In d l /\ jget d k <> None) /\
  (forall i d, nth_error l i = Some d ->
     nth_error (values f) i = Some (map (jget d) (columns f))).
Proof.
  unfold json_to_dataframe. destruct l as [|d0 r]; [discriminate|].
  destruct (frame_empty (pd_DataFrame (d0 :: r))); [discriminate|].
  intros H. injection H as <-. unfold pd_DataFrame. cbn [columns values].
  destruct (columns_of_spec (d0 :: r)) as [H1 H2].
  split; [rewrite length_map; reflexivity|].
  split; [exact H1|split; [exact H2|]].
  intros i d Hi. rewrite nth_error_map, Hi. reflexivity.
Qed.

Lemma json_to_dataframe_shape_witness :
  exists f,
    json_to_dataframe [[("strike", JInt 10000)]; [("strike", JInt 9000); ("kind", JStr "option")]]
      = Done f /\
    List.length (values f) = 2%nat /\ NoDup (columns f).
Proof.
  eexists. split; [reflexivity|].
  destruct (json_to_dataframe_shape
              [[("strike", JInt 10000)]; [("strike", JInt 9000); ("kind", JStr "option")]]
              _ eq_refl) as (L & N & _ & _).
  split; [exact L|exact N].
Defined.

(** ** [data_fetcher.flatten_instrument] *)

Lemma jget_jset_same (d : jdict) (k : string) (v : json) :
  jget (jset d k v) k = Some v.
Proof.
  induction d as [|[k0 v0] r IH]; simpl.
  - rewrite String.eqb_refl. reflexivity.
  - destruct (String.eqb k k0) eqn:E; simpl; rewrite E; [reflexivity|exact IH].
Qed.

Lemma jget_jset_other (d : jdict) (k k' : string) (v : json) :
  k' <> k -> jget (jset d k v) k' = jget d k'.
Proof.
  intros Hne. induction d as [|[k0 v0] r IH]; simpl.
  - destruct (String.eqb_spec k' k); [contradiction|reflexivity].
  - destruct (String.eqb_spec k k0) as [->|Hk]; simpl.
    + destruct (String.eqb_spec k' k0); [contradiction|reflexivity].
    + destruct (String.eqb k' k0); [reflexivity|exact IH].
Qed.

Lemma jset_keys (d : jdict) (k : string) (v : json) :
  exists ext, map fst (jset d k v) = app (map fst d) ext.
Proof.
  induction d as [|[k0 v0] r IH]; simpl.
  - exists [k]. reflexivity.
  - destruct (String.eqb k k0); simpl.
    + exists []. rewrite app_nil_r. reflexivity.
    + destruct IH as [ext Hext]. exists ext. rewrite Hext. reflexivity.
Qed.

Lemma flatten_fold_get (s acc : jdict) (k : string) :
  jget (fold_left (fun acc kv => match jget acc (fst kv) with
                                 | Some _ => acc
                                 | None => jset acc (fst kv) (snd kv)
                                 end) s acc) k
  = match jget acc k with Some v => Some v | None => jget s k end.
Proof.
  revert acc. induction s as [|[k0 v0] r IH]; intros acc; simpl.
  - destruct (jget acc k); reflexivity.
  - rewrite IH. destruct (String.eqb_spec k k0) as [->|Hk].
    + destruct (jget acc k0) eqn:E; simpl; rewrite ?E, ?jget_jset_same; reflexivity.
    + destruct (jget acc k0) eqn:E; simpl; [reflexivity|].
      rewrite (jget_jset_other _ _ _ _ Hk). reflexivity.
Qed.

Lemma flatten_fold_keys (s acc : jdict) :
  exists ext,
    map fst (fold_left (fun acc kv => match jget acc (fst kv) with
                                      | Some _ => acc
                                      | None => jset acc (fst kv) (snd kv)
                                      end) s acc)
    = app (map fst acc) ext.
Proof.
  revert acc. induction s as [|[k0 v0] r IH]; intros acc; simpl.
  - exists []. rewrite app_nil_r. reflexivity.
  - destruct (jget acc k0).
    + exact (IH acc).
    + destruct (jset_keys acc k0 v0) as [e1 H1].
      destruct (IH (jset acc k0 v0)) as [e2 H2].
      exists (app e1 e2). rewrite H2, H1, app_assoc. reflexivity.
Qed.

Lemma flatten_fold_noop (s acc : jdict) :
  (forall kv, In kv s -> jget acc (fst kv) <> None) ->
  fold_left (fun acc kv => match jget acc (fst kv) with
                           | Some _ => acc
                           | None => jset acc (fst kv) (snd kv)
                           end) s acc = acc.
Proof.
  induction s as [|kv r IH]; intros H; simpl; [reflexivity|].
  destruct (jget acc (fst kv)) eqn:E.
  - apply IH. intros kv' Hin. apply H. right. exact Hin.
  - exfalso. apply (H kv); [left; reflexivity|exact E].
Qed.

(** [flatten_instrument] succeeds exactly on a dict whose ['stats'] is a
    dict; on anything else (no ['stats'], whose default [[]] has no
    [.items()], a ['stats'] that is not a dict, an instrument that is not a
    dict) it raises [AttributeError] and nothing else. *)
Theorem flatten_instrument_domain (instrument : json) :
  ((exists r, flatten_instrument instrument = Done r) <->
   (exists d s, instrument = JObj d /\ jget d "stats" = Some (JObj s))) /\
  (forall e, flatten_instrument instrument = Raise e -> e = AttributeError).
Proof.
  split.
  - split.
    + intros [r Hr]. destruct instrument as [| | | | | |d]; try discriminate.
      simpl in Hr. destruct (jget d "stats") as [v|] eqn:E; [|discriminate].
      destruct v as [| | | | | |s]; try discriminate.
      exists d, s. split; [reflexivity|exact E].
    + intros (d & s & -> & Hs). simpl. rewrite Hs. eexists. reflexivity.
  - intros e He. destruct instrument as [| | | | | |d]; simpl in He;
      try (injection He as <-; reflexivity).
    destruct (jget d "stats") as [v|];
      [destruct v; try discriminate; injection He as <-; reflexivity
      |injection He as <-; reflexivity].
Qed.

(** With a dict ['stats'], the flattened instrument keeps every key and
    value of the instrument, in place, and adds each key of ['stats'] it
    lacks with its ['stats'] value, after the existing keys. *)
Theorem flatten_instrument_merge (d s : jdict) :
  jget d "stats" = Some (JObj s) ->
  exists r, flatten_instrument (JObj d) = Done r /\
    (forall k, jget r k = match jget d k with Some v => Some v | None => jget s k end) /\
    exists ext, map fst r = app (map fst d) ext.
Proof.
  intros Hs. simpl. rewrite Hs. eexists. split; [reflexivity|]. split.
  - intros k. apply flatten_fold_get.
  - apply flatten_fold_keys.
Qed.

Lemma flatten_instrument_merge_witness :
  jget [("instrument_name", JStr "BTC-X"); ("mark_price", JInt 7);
        ("stats", JObj [("volume", JInt 12); ("mark_price", JInt 0)])] "stats"
    = Some (JObj [("volume", JInt 12); ("mark_price", JInt 0)]) /\
  exists r, flatten_instrument (JObj [("instrument_name", JStr "BTC-X"); ("mark_price", JInt 7);
        ("stats", JObj [("volume", JInt 12); ("mark_price", JInt 0)])]) = Done r /\
    (forall k, jget r k = match jget [("instrument_name", JStr "BTC-X"); ("mark_price", JInt 7);
        ("stats", JObj [("volume", JInt 12); ("mark_price", JInt 0)])] k with
        Some v => Some v | None => jget [("volume", JInt 12); ("mark_price", JInt 0)] k end) /\
    exists ext, map fst r = app (map fst [("instrument_name", JStr "BTC-X"); ("mark_price", JInt 7);
        ("stats", JObj [("volume", JInt 12); ("mark_price", JInt 0)])]) ext.
Proof.
  split; [reflexivity|]. apply flatten_instrument_merge. reflexivity.
Defined.

(** Flattening is idempotent: flattening a flattened instrument again
    returns it unchanged. *)
Theorem flatten_instrument_idempotent (d r : jdict) :
  flatten_instrument (JObj d) = Done r -> flatten_instrument (JObj r) = Done r.
Proof.
  intros H. simpl in H. destruct (jget d "stats") as [v|] eqn:Hs; [|discriminate].
  destruct v as [| | | | | |s]; try discriminate. injection H as <-.
  simpl. rewrite flatten_fold_get, Hs. f_equal.
  apply flatten_fold_noop. intros [k v] Hin. simpl.
  rewrite flatten_fold_get. destruct (jget d k); [discriminate|].
  apply jget_In. apply in_map_iff. exists (k, v). split; [reflexivity|exact Hin].
Qed.

Lemma flatten_instrument_idempotent_witness :
  flatten_instrument (JObj [("mark_price", JInt 7); ("stats", JObj [("volume", JInt 12)])])
    = Done [("mark_price", JInt 7); ("stats", JObj [("volume", JInt 12)]); ("volume", JInt 12)] /\
  flatten_instrument (JObj [("mark_price", JInt 7); ("stats", JObj [("volume", JInt 12)]); ("volume", JInt 12)])
    = Done [("mark_price", JInt 7); ("stats", JObj [("volume", JInt 12)]); ("volume", JInt 12)].
Proof.
  split; [reflexivity|]. apply (flatten_instrument_idempotent
    [("mark_price", JInt 7); ("stats", JObj [("volume", JInt 12)])]). reflexivity.
Defined.

(** ** Requests: [data_fetcher.get_ticker] and
    [data_fetcher.get_btc_option_instruments] *)

Lemma bind_eq {A B : Type} (m : io A) (k : A -> io B) :
  io_bind m k = match snd m with
                | Done a => (app (fst m) (fst (k a)), snd (k a))
                | Raise e => (fst m, Raise e)
                end.
Proof. unfold io_bind. destruct (snd m) as [a|e]; [destruct (k a)|]; reflexivity. Qed.

Lemma bind_lift_done {A B : Type} (a : A) (k : A -> io B) :
  io_bind (lift (Done a)) k = k a.
Proof. rewrite bind_eq. simpl. destruct (k a); reflexivity. Qed.

Lemma bind_lift_raise {A B : Type} (e : exc) (k : A -> io B) :
  io_bind (lift (Raise e)) k = ([], Raise e).
Proof. reflexivity. Qed.

Lemma bind_get {B : Type} (http : request -> response) (r : request)
  (k : response -> io B) :
  io_bind (requests_get http r) k = (Sent r :: fst (k (http r)), snd (k (http r))).
Proof. rewrite bind_eq. reflexivity. Qed.

Lemma raise_for_status_ok (r : response) :
  raise_for_status r = Done tt <-> ~ (400 <= status_code r < 600)%Z.
Proof.
  unfold raise_for_status.
  destruct ((400 <=? status_code r)%Z && (status_code r <? 600)%Z) eqn:E.
  - apply andb_true_iff in E. destruct E as [E1 E2].
    apply Z.leb_le in E1. apply Z.ltb_lt in E2.
    split; [discriminate|intros C; exfalso; apply C; split; assumption].
  - split; [intros _|reflexivity]. intros [H1 H2].
    apply Z.leb_le in H1. apply Z.ltb_lt in H2. rewrite H1, H2 in E. discriminate.
Qed.

Lemma raise_for_status_error (r : response) :
  (400 <= status_code r < 600)%Z -> raise_for_status r = Raise (HTTPError (status_code r)).
Proof.
  intros [H1 H2]. unfold raise_for_status.
  apply Z.leb_le in H1. apply Z.ltb_lt in H2. rewrite H1, H2. reflexivity.
Qed.

Lemma get_ticker_eq (http : request -> response) (name : json) :
  get_ticker http name =
  ([Sent (GetTicker name)],
   u <-- raise_for_status (http (GetTicker name)) ;;
   data <-- response_json (http (GetTicker name)) ;;
   res <-- result_field data ;;
   match res with
   | Some v => flatten_instrument v
   | None => Raise (PyError (ValueError "Invalid response format or no result found."))
   end).
Proof.
  unfold get_ticker. rewrite bind_get. cbv beta.
  destruct (raise_for_status (http (GetTicker name))) as [[]|e];
    [rewrite bind_lift_done|reflexivity].
  destruct (response_json (http (GetTicker name))) as [data|e];
    [rewrite bind_lift_done|reflexivity].
  destruct (result_field data) as [[v|]|e]; [rewrite bind_lift_done..|reflexivity];
    reflexivity.
Qed.

(** [get_ticker] sends exactly one request, for the ticker of the name it
    is given, and returns a result exactly when the answer has a status
    outside [400..599], a JSON object body with a truthy ['result'], and
    that result flattens; the value returned is the flattened result. *)
Theorem get_ticker_result (http : request -> response) (name : json) (r : jdict) :
  fst (get_ticker http name) = [Sent (GetTicker name)] /\
  (snd (get_ticker http name) = Done r <->
   ~ (400 <= status_code (http (GetTicker name)) < 600)%Z /\
   exists data v, body (http (GetTicker name)) = Some (JObj data) /\
     jget data "result" = Some v /\ truthy v = true /\ flatten_instrument v = Done r).
Proof.
  rewrite get_ticker_eq. split; [reflexivity|]. cbn [snd]. split.
  - intros H. destruct (raise_for_status (http (GetTicker name))) as [[]|e] eqn:Hst;
      [|discriminate].
    split; [apply raise_for_status_ok; exact Hst|].
    unfold response_json in H. destruct (body (http (GetTicker name))) as [data|];
      [|discriminate].
    destruct data as [| | | | |l|d]; cbn [result_field] in H; try discriminate.
    + destruct (String.index 0 "result" s); discriminate.
    + destruct (existsb _ l); discriminate.
    + destruct (jget d "result") as [v|] eqn:Hv; [|discriminate].
      destruct (truthy v) eqn:Ht; [|discriminate].
      exists d, v. repeat split; assumption.
  - intros (Hn & data & v & Hb & Hv & Ht & Hf).
    apply raise_for_status_ok in Hn. rewrite Hn.
    unfold response_json. rewrite Hb. cbn [result_field]. rewrite Hv, Ht. exact Hf.
Qed.

(** The errors of [get_ticker], after its one request: a status in
    [400..599] raises [HTTPError] with that status; otherwise a body that is
    not JSON raises the decoding error, and a JSON object body whose
    ['result'] is missing or falsy raises [ValueError]. *)
Theorem get_ticker_errors (http : request -> response) (name : json) :
  ((400 <= status_code (http (GetTicker name)) < 600)%Z ->
   get_ticker http name =
   ([Sent (GetTicker name)], Raise (HTTPError (status_code (http (GetTicker name)))))) /\
  (~ (400 <= status_code (http (GetTicker name)) < 600)%Z ->
   body (http (GetTicker name)) = None ->
   get_ticker http name = ([Sent (GetTicker name)], Raise JSONDecodeError)) /\
  (forall data, ~ (400 <= status_code (http (GetTicker name)) < 600)%Z ->
   body (http (GetTicker name)) = Some (JObj data) ->
   (forall v, jget data "result" = Some v -> truthy v = false) ->
   get_ticker http name =
   ([Sent (GetTicker name)],
    Raise (PyError (ValueError "Invalid response format or no result found.")))).
Proof.
  rewrite get_ticker_eq. split; [|split].
  - intros H. rewrite (raise_for_status_error _ H). reflexivity.
  - intros Hn Hb. apply raise_for_status_ok in Hn. rewrite Hn.
    unfold response_json. rewrite Hb. reflexivity.
  - intros data Hn Hb Hv. apply raise_for_status_ok in Hn. rewrite Hn.
    unfold response_json. rewrite Hb. cbn [result_field].
    destruct (jget data "result") as [v|]; [rewrite (Hv v eq_refl)|]; reflexivity.
Qed.

Lemma check_strike_raise (strike : json) (e : exc) :
  check_strike strike = Raise e -> e = PyError TypeError.
Proof. destruct strike; simpl; congruence. Qed.

Lemma fetch_tickers_done (http : request -> response) (l : list json)
  (tr : list event) (u : list jdict) :
  fetch_tickers http l = (tr, Done u) ->
  exists items : list (jdict * json * jdict),
    l = map (fun it => JObj (fst (fst it))) items /\
    u = map (fun it => jupdate (fst (fst it)) (snd it)) items /\
    tr = flat_map (fun it => [Sent (GetTicker (snd (fst it))); Slept]) items /\
    Forall (fun it => jget (fst (fst it)) "instrument_name" = Some (snd (fst it)) /\
      get_ticker http (snd (fst it)) = ([Sent (GetTicker (snd (fst it)))], Done (snd it)))
      items.
Proof.
  revert tr u. induction l as [|x r IH]; intros tr u H.
  - simpl in H. injection H as <- <-. exists []. repeat split. constructor.
  - destruct x as [| | | | | |d]; try (simpl in H; discriminate).
    cbn [fetch_tickers] in H.
    destruct (jget d "instrument_name") as [n|] eqn:Hn;
      [rewrite bind_lift_done in H; cbv beta in H|discriminate].
    rewrite bind_eq in H.
    destruct (get_ticker http n) as [t1 o1] eqn:G.
    assert (Ht1 : t1 = [Sent (GetTicker n)]).
    { pose proof (proj1 (get_ticker_result http n [])) as Hf. rewrite G in Hf. exact Hf. }
    subst t1. destruct o1 as [t|e]; cbn [fst snd] in H; [|discriminate].
    rewrite bind_eq in H. cbn [fst snd] in H. rewrite bind_eq in H.
    destruct (fetch_tickers http r) as [t2 o2] eqn:F.
    destruct o2 as [rest|e]; cbn [fst snd] in H; [|discriminate].
    injection H as <- <-.
    destruct (IH t2 rest eq_refl) as (items & Hl & Hu & Htr & Hall).
    exists ((d, n, t) :: items). cbn [map flat_map fst snd].
    rewrite <- Hl, <- Hu, <- Htr. repeat split; [rewrite app_nil_r; reflexivity|].
    constructor; [split; assumption|exact Hall].
Qed.

Lemma py_iter_objs (x : json) (ds : list jdict) :
  py_iter x = Done (map JObj ds) -> ds <> [] -> x = JList (map JObj ds).
Proof.
  intros H Hne. destruct ds as [|d ds]; [contradiction|].
  destruct x as [| | | |str|l|d']; simpl in H; try discriminate.
  - destruct (list_ascii_of_string str); discriminate.
  - injection H as H. rewrite H. reflexivity.
  - destruct d' as [|[k v] r]; discriminate.
Qed.

(** The argument types are checked before anything is sent: a [strike]
    that is not [None] or a number, or an [expiration_timestamp] that is not
    [None] or an [int], raises [TypeError] with no request made; with
    arguments of the right types the first request is the instrument
    listing. *)
Theorem get_btc_option_instruments_type_check (http : request -> response)
  (strike expiration_timestamp : json) :
  ((strike <> JNull /\ json_number strike = None) \/
   match expiration_timestamp with JNull | JInt _ | JBool _ => False | _ => True end ->
   get_btc_option_instruments http strike expiration_timestamp
   = ([], Raise (PyError TypeError))) /\
  (~ ((strike <> JNull /\ json_number strike = None) \/
      match expiration_timestamp with JNull | JInt _ | JBool _ => False | _ => True end) ->
   exists t, fst (get_btc_option_instruments http strike expiration_timestamp)
             = Sent GetInstruments :: t).
Proof.
  unfold get_btc_option_instruments. split.
  - intros [[Hn Hj]|He].
    + destruct strike; simpl in Hj; try discriminate; try (exfalso; apply Hn; reflexivity);
        reflexivity.
    + destruct (check_strike strike) as [so|e] eqn:Hs.
      * rewrite bind_lift_done.
        destruct expiration_timestamp; try contradiction; reflexivity.
      * rewrite (check_strike_raise _ _ Hs). reflexivity.
  - intros Hv.
    destruct (check_strike strike) as [so|e] eqn:Hs.
    + rewrite bind_lift_done.
      destruct (check_expiration expiration_timestamp) as [eo|e] eqn:He.
      * rewrite bind_lift_done, bind_get. eexists. reflexivity.
      * exfalso. apply Hv. right.
        destruct expiration_timestamp; simpl in He; try discriminate; exact I.
    + exfalso. apply Hv. left.
      destruct strike; simpl in Hs; try discriminate; split; try discriminate; reflexivity.
Qed.

(** When the listing is answered, has a truthy ['result'], and no
    instrument passes the filters, only the listing request is made and
    [json_to_dataframe] raises its empty-input error. *)
Theorem get_btc_option_instruments_no_match (http : request -> response)
  (strike expiration_timestamp : json) (so eo : option f64) (data : jdict) (v : json) :
  check_strike strike = Done so ->
  check_expiration expiration_timestamp = Done eo ->
  ~ (400 <= status_code (http GetInstruments) < 600)%Z ->
  body (http GetInstruments) = Some (JObj data) ->
  jget data "result" = Some v -> truthy v = true ->
  filter_instruments v so eo = Done (JList []) ->
  get_btc_option_instruments http strike expiration_timestamp
  = ([Sent GetInstruments], Raise (PyError (ValueError "Input JSON data is empty"))).
Proof.
  intros Hs He Hn Hb Hv Ht Hf. unfold get_btc_option_instruments.
  rewrite Hs, bind_lift_done, He, bind_lift_done, bind_get.
  apply raise_for_status_ok in Hn. rewrite Hn, bind_lift_done.
  unfold response_json. rewrite Hb, bind_lift_done.
  cbn [result_field]. rewrite Hv, Ht, bind_lift_done, Hf. reflexivity.
Qed.

Lemma get_btc_option_instruments_no_match_witness :
  check_strike (JInt 90000) = Done (Some (Fin 90000)) /\
  check_expiration JNull = Done None /\
  ~ (400 <= status_code (example_api GetInstruments) < 600)%Z /\
  body (example_api GetInstruments) = Some (JObj [("result", example_instruments)]) /\
  jget [("result", example_instruments)] "result" = Some example_instruments /\
  truthy example_instruments = true /\
  filter_instruments example_instruments (Some (Fin 90000)) None = Done (JList []) /\
  get_btc_option_instruments example_api (JInt 90000) JNull
  = ([Sent GetInstruments], Raise (PyError (ValueError "Input JSON data is empty"))).
Proof.
  assert (Hn : ~ (400 <= status_code (example_api GetInstruments) < 600)%Z)
    by (simpl; lia).
  split; [reflexivity|]. split; [reflexivity|]. split; [exact Hn|].
  split; [reflexivity|]. split; [reflexivity|]. split; [reflexivity|].
  split; [reflexivity|].
  apply (get_btc_option_instruments_no_match example_api (JInt 90000) JNull
           (Some (Fin 90000)) None [("result", example_instruments)] example_instruments);
    try reflexivity; exact Hn.
Defined.

(** With arguments of the right types, the errors of the listing request:
    a status in [400..599] raises [HTTPError]; otherwise a body that is not
    JSON raises the decoding error, and a JSON object body whose ['result']
    is missing or falsy raises "No instruments found or invalid response
    format."; in each case the listing is the only request made. *)
Theorem get_btc_option_instruments_listing_errors (http : request -> response)
  (strike expiration_timestamp : json) (so eo : option f64) :
  check_strike strike = Done so ->
  check_expiration expiration_timestamp = Done eo ->
  ((400 <= status_code (http GetInstruments) < 600)%Z ->
   get_btc_option_instruments http strike expiration_timestamp =
   ([Sent GetInstruments], Raise (HTTPError (status_code (http GetInstruments))))) /\
  (~ (400 <= status_code (http GetInstruments) < 600)%Z ->
   body (http GetInstruments) = None ->
   get_btc_option_instruments http strike expiration_timestamp =
   ([Sent GetInstruments], Raise JSONDecodeError)) /\
  (forall data, ~ (400 <= status_code (http GetInstruments) < 600)%Z ->
   body (http GetInstruments) = Some (JObj data) ->
   (forall v, jget data "result" = Some v -> truthy v = false) ->
   get_btc_option_instruments http strike expiration_timestamp =
   ([Sent GetInstruments],
    Raise (PyError (ValueError "No instruments found or invalid response format.")))).
Proof.
  intros Hs He. unfold get_btc_option_instruments.
  rewrite Hs, bind_lift_done, He, bind_lift_done, bind_get. split; [|split].
  - intros H. rewrite (raise_for_status_error _ H). reflexivity.
  - intros Hn Hb. apply raise_for_status_ok in Hn. rewrite Hn, bind_lift_done.
    unfold response_json. rewrite Hb. reflexivity.
  - intros data Hn Hb Hv. apply raise_for_status_ok in Hn. rewrite Hn, bind_lift_done.
    unfold response_json. rewrite Hb, bind_lift_done. cbn [result_field].
    destruct (jget data "result") as [v|]; [rewrite (Hv v eq_refl)|]; reflexivity.
Qed.

Lemma get_btc_option_instruments_listing_errors_witness :
  check_strike JNull = Done None /\ check_expiration (JInt 1750996800000) =
    Done (Some (Fin (inject_Z 1750996800000))) /\
  ((400 <= status_code (example_api GetInstruments) < 600)%Z ->
   get_btc_option_instruments example_api JNull (JInt 1750996800000) =
   ([Sent GetInstruments], Raise (HTTPError (status_code (example_api GetInstruments))))) /\
  (~ (400 <= status_code (example_api GetInstruments) < 600)%Z ->
   body (example_api GetInstruments) = None ->
   get_btc_option_instruments example_api JNull (JInt 1750996800000) =
   ([Sent GetInstruments], Raise JSONDecodeError)) /\
  (forall data, ~ (400 <= status_code (example_api GetInstruments) < 600)%Z ->
   body (example_api GetInstruments) = Some (JObj data) ->
   (forall v, jget data "result" = Some v -> truthy v = false) ->
   get_btc_option_instruments example_api JNull (JInt 1750996800000) =
   ([Sent GetInstruments],
    Raise (PyError (ValueError "No instruments found or invalid response format.")))).
Proof.
  split; [reflexivity|]. split; [reflexivity|].
  apply (get_btc_option_instruments_listing_errors example_api JNull (JInt 1750996800000)
           None (Some (Fin (inject_Z 1750996800000)))); reflexivity.
Defined.

(** A successful call made the listing request, then, for each instrument
    that passed the filters (there is at least one), in order, a ticker
    request for its ['instrument_name'] followed by a sleep; each ticker
    succeeded, and the frame is built from the instruments updated with
    their tickers. *)
Theorem get_btc_option_instruments_success (http : request -> response)
  (strike expiration_timestamp : json) (tr : list event) (f : frame) :
  get_btc_option_instruments http strike expiration_timestamp = (tr, Done f) ->
  exists so eo data v (items : list (jdict * json * jdict)),
    check_strike strike = Done so /\
    check_expiration expiration_timestamp = Done eo /\
    ~ (400 <= status_code (http GetInstruments) < 600)%Z /\
    body (http GetInstruments) = Some (JObj data) /\
    jget data "result" = Some v /\ truthy v = true /\
    filter_instruments v so eo = Done (JList (map (fun it => JObj (fst (fst it))) items)) /\
    items <> [] /\
    Forall (fun it => jget (fst (fst it)) "instrument_name" = Some (snd (fst it)) /\
      get_ticker http (snd (fst it)) = ([Sent (GetTicker (snd (fst it)))], Done (snd it)))
      items /\
    tr = Sent GetInstruments :: flat_map (fun it => [Sent (GetTicker (snd (fst it))); Slept]) items /\
    f = pd_DataFrame (map (fun it => jupdate (fst (fst it)) (snd it)) items).
Proof.
  intros H. unfold get_btc_option_instruments in H.
  destruct (check_strike strike) as [so|e] eqn:Hs; [rewrite bind_lift_done in H|discriminate].
  destruct (check_expiration expiration_timestamp) as [eo|e] eqn:He;
    [rewrite bind_lift_done in H|discriminate].
  rewrite bind_get in H.
  destruct (raise_for_status (http GetInstruments)) as [[]|e] eqn:Hst;
    [rewrite bind_lift_done in H|discriminate].
  unfold response_json in H.
  destruct (body (http GetInstruments)) as [data'|] eqn:Hb;
    [rewrite bind_lift_done in H|discriminate].
  destruct (result_field data') as [[v|]|e] eqn:Hr;
    [rewrite bind_lift_done in H|rewrite bind_lift_done in H; discriminate|discriminate].
  cbv beta iota in H.
  destruct (filter_instruments v so eo) as [filtered|e] eqn:Hf;
    [rewrite bind_lift_done in H|discriminate].
  destruct (py_iter filtered) as [items|e] eqn:Hi;
    [rewrite bind_lift_done in H|discriminate].
  rewrite bind_eq in H.
  destruct (fetch_tickers http items) as [t1 o1] eqn:F.
  destruct o1 as [u|e]; cbn [fst snd] in H; [|discriminate].
  destruct (json_to_dataframe u) as [df|e] eqn:J; cbn [fst snd lift] in H; [|discriminate].
  injection H as Htr Hdf. subst f.
  destruct (fetch_tickers_done http items t1 u F) as (its & Hl & Hu & Ht1 & Hall).
  assert (Hne : its <> []).
  { intros ->. subst u. discriminate. }
  destruct data' as [| | | | |l|d]; try discriminate.
  - simpl in Hr. destruct (String.index 0 "result" s); discriminate.
  - simpl in Hr. destruct (existsb _ l); discriminate.
  - simpl in Hr. destruct (jget d "result") as [w|] eqn:Hw; [|discriminate].
    destruct (truthy w) eqn:Htw; injection Hr as Hr; [|discriminate].
    subst w.
    exists so, eo, d, v, its. repeat split; try assumption.
    + apply raise_for_status_ok. exact Hst.
    + rewrite Hf. f_equal.
      rewrite <- (map_map (fun it => fst (fst it)) JObj).
      apply py_iter_objs.
      * rewrite Hi, Hl, map_map. reflexivity.
      * intros Hnil. apply Hne. apply map_eq_nil in Hnil. exact Hnil.
    + rewrite <- Htr, Ht1, app_nil_r. reflexivity.
    + rewrite <- Hu. unfold json_to_dataframe in J.
      destruct u; [discriminate|].
      destruct (frame_empty _); [discriminate|]. injection J as <-. reflexivity.
Qed.

Lemma get_btc_option_instruments_success_witness :
  exists tr f,
    get_btc_option_instruments example_api (JFloat (Fin 100000)) JNull = (tr, Done f) /\
    exists so eo data v (items : list (jdict * json * jdict)),
      check_strike (JFloat (Fin 100000)) = Done so /\
      check_expiration JNull = Done eo /\
      ~ (400 <= status_code (example_api GetInstruments) < 600)%Z /\
      body (example_api GetInstruments) = Some (JObj data) /\
      jget data "result" = Some v /\ truthy v = true /\
      filter_instruments v so eo = Done (JList (map (fun it => JObj (fst (fst it))) items)) /\
      items <> [] /\
      Forall (fun it => jget (fst (fst it)) "instrument_name" = Some (snd (fst it)) /\
        get_ticker example_api (snd (fst it))
        = ([Sent (GetTicker (snd (fst it)))], Done (snd it))) items /\
      tr = Sent GetInstruments
           :: flat_map (fun it => [Sent (GetTicker (snd (fst it))); Slept]) items /\
      f = pd_DataFrame (map (fun it => jupdate (fst (fst it)) (snd it)) items).
Proof.
  destruct (get_btc_option_instruments example_api (JFloat (Fin 100000)) JNull)
    as [tr o] eqn:H.
  destruct o as [f|e]; [|vm_compute in H; discriminate].
  exists tr, f. split; [reflexivity|].
  exact (get_btc_option_instruments_success example_api _ _ tr f H).
Defined.

(** ** [utils.datetime_to_utc_timestamp_ms] *)

Lemma round_half_even_exact (q d : Z) : (0 < d)%Z -> round_half_even (q * d) d = q.
Proof.
  intros Hd. unfold round_half_even.
  rewrite Z.div_mul, Z.mod_mul by lia.
  replace (Z.compare (2 * 0) d) with Lt by (symmetry; apply Z.compare_lt_iff; lia).
  reflexivity.
Qed.

Lemma round_half_even_err (n d : Z) :
  (0 < d)%Z -> (Z.abs (2 * (round_half_even n d * d - n)) <= d)%Z.
Proof.
  intros Hd. unfold round_half_even.
  pose proof (Z.div_mod n d ltac:(lia)) as Hdm.
  pose proof (Z.mod_pos_bound n d Hd) as Hb.
  set (q := (n / d)%Z) in *. set (r := (n mod d)%Z) in *.
  apply Z.abs_le.
  destruct (Z.compare_spec (2 * r) d); [destruct (Z.even q)|..]; lia.
Qed.

Lemma pow2_le_b_spec (k n d : Z) :
  pow2_le_b k n d = true ->
  ((0 <= k)%Z -> (d * 2 ^ k <= Z.abs n)%Z) /\ ((k < 0)%Z -> (d <= Z.abs n * 2 ^ (- k))%Z).
Proof.
  unfold pow2_le_b. destruct (Z.leb_spec 0 k) as [Hk|Hk]; intros H;
    apply Z.leb_le in H; split; intros; lia.
Qed.

Lemma flog2_lower (n d : Z) :
  n <> 0%Z -> (0 < d)%Z -> pow2_le_b (flog2 n d) n d = true.
Proof.
  intros Hn Hd. unfold flog2.
  set (ln := Z.log2 (Z.abs n)). set (ld := Z.log2 d).
  destruct (pow2_le_b (ln - ld) n d) eqn:E; [exact E|].
  destruct (Z.log2_spec (Z.abs n) ltac:(lia)) as [Hn1 Hn2].
  destruct (Z.log2_spec d Hd) as [Hd1 Hd2].
  pose proof (Z.log2_nonneg (Z.abs n)). pose proof (Z.log2_nonneg d).
  fold ln in Hn1, Hn2, H. fold ld in Hd1, Hd2, H0.
  unfold pow2_le_b. destruct (Z.leb_spec 0 (ln - ld - 1)) as [Hk|Hk]; apply Z.leb_le.
  - assert (Hp : (2 ^ Z.succ ld * 2 ^ (ln - ld - 1) = 2 ^ ln)%Z)
      by (rewrite <- Z.pow_add_r by lia; f_equal; lia).
    assert (0 < 2 ^ (ln - ld - 1))%Z by (apply Z.pow_pos_nonneg; lia).
    nia.
  - assert (Hp : (2 ^ ln * 2 ^ (- (ln - ld - 1)) = 2 ^ Z.succ ld)%Z)
      by (rewrite <- Z.pow_add_r by lia; f_equal; lia).
    assert (0 < 2 ^ (- (ln - ld - 1)))%Z by (apply Z.pow_pos_nonneg; lia).
    nia.
Qed.

Lemma b64_div_err (n : Z) (dp : positive) :
  Qabs (b64_div n (Zpos dp) - (n # dp)) * inject_Z (2 ^ 53) <= Qabs (n # dp).
Proof.
  unfold b64_div. destruct (Z.eqb_spec n 0) as [->|Hn].
  - unfold Qle; simpl. lia.
  - pose proof (pow2_le_b_spec _ _ _ (flog2_lower n (Zpos dp) Hn ltac:(lia))) as [Hpos Hneg].
    set (k := flog2 n (Zpos dp)) in *.
    destruct (Z.leb_spec 0 (k - 52)) as [He|He].
    + set (e := (k - 52)%Z) in *.
      assert (H2e : (0 < 2 ^ e)%Z) by (apply Z.pow_pos_nonneg; lia).
      set (D := (Zpos dp * 2 ^ e)%Z).
      assert (HD : (0 < D)%Z) by (unfold D; lia).
      pose proof (round_half_even_err n D HD) as Herr.
      set (m := round_half_even n D) in *.
      assert (Hlow : (2 ^ 52 * D <= Z.abs n)%Z).
      { specialize (Hpos ltac:(lia)). unfold D.
        replace k with (e + 52)%Z in Hpos by (unfold e; lia).
        rewrite Z.pow_add_r in Hpos by lia. lia. }
      assert (Hkey : (Z.abs (m * D - n) * 2 ^ 53 <= Z.abs n)%Z).
      { rewrite Z.abs_mul in Herr. change (2 ^ 53)%Z with (2 * 2 ^ 52)%Z. nia. }
      unfold Qle, Qabs, Qminus, Qplus, Qopp, Qmult, inject_Z. simpl.
      rewrite Pos.mul_1_r. change (Z.pow_pos 2 53) with (2 ^ 53)%Z.
      replace (m * 2 ^ e * Z.pos dp + - n * 1)%Z with (m * D - n)%Z by (unfold D; ring).
      apply Z.mul_le_mono_nonneg_r; lia.
    + set (E := (2 ^ (- (k - 52)))%Z).
      assert (HE : (0 < E)%Z) by (apply Z.pow_pos_nonneg; lia).
      pose proof (round_half_even_err (n * E) (Zpos dp) ltac:(lia)) as Herr.
      set (m := round_half_even (n * E) (Zpos dp)) in *.
      assert (Hlow : (2 ^ 52 * Zpos dp <= Z.abs n * E)%Z).
      { destruct (Z.leb_spec 0 k) as [Hk|Hk].
        - specialize (Hpos Hk). unfold E.
          assert (Hp : (2 ^ k * 2 ^ (- (k - 52)) = 2 ^ 52)%Z)
            by (rewrite <- Z.pow_add_r by lia; f_equal; lia).
          assert (0 < 2 ^ (- (k - 52)))%Z by (apply Z.pow_pos_nonneg; lia).
          nia.
        - specialize (Hneg Hk). unfold E.
          assert (Hp : (2 ^ (- k) * 2 ^ 52 = 2 ^ (- (k - 52)))%Z)
            by (rewrite <- Z.pow_add_r by lia; f_equal; lia).
          nia. }
      assert (Hkey : (Z.abs (m * Zpos dp - n * E) * 2 ^ 53 <= Z.abs n * E)%Z).
      { rewrite Z.abs_mul in Herr. change (2 ^ 53)%Z with (2 * 2 ^ 52)%Z. nia. }
      unfold Qle, Qabs, Qminus, Qplus, Qopp, Qmult. simpl.
      rewrite Pos.mul_1_r, Pos2Z.inj_mul, Z2Pos.id by exact HE.
      change (Z.pow_pos 2 53) with (2 ^ 53)%Z.
      replace (m * Z.pos dp + - n * E)%Z with (m * Z.pos dp - n * E)%Z by ring.
      rewrite Z.mul_assoc.
      apply Z.mul_le_mono_nonneg_r; lia.
Qed.

Lemma b64_round_err (x : Q) :
  Qabs (b64_round x - x) * inject_Z (2 ^ 53) <= Qabs x.
Proof. destruct x as [a b]. apply b64_div_err. Qed.

Lemma b64_div_exact (s : Z) (dp : positive) :
  (Z.abs s < 2 ^ 53)%Z ->
  Qnum (b64_div (s * Zpos dp) (Zpos dp))
  = (s * Zpos (Qden (b64_div (s * Zpos dp) (Zpos dp))))%Z.
Proof.
  intros Hs. unfold b64_div.
  destruct (Z.eqb_spec (s * Zpos dp) 0) as [H0|H0]; [simpl; nia|].
  pose proof (pow2_le_b_spec _ _ _ (flog2_lower _ (Zpos dp) H0 ltac:(lia))) as [Hpos Hneg].
  set (k := flog2 (s * Zpos dp) (Zpos dp)) in *.
  assert (Hk : (k <= 52)%Z).
  { destruct (Z.leb_spec 0 k) as [Hk|Hk]; [|lia].
    specialize (Hpos Hk). rewrite Z.abs_mul in Hpos.
    change (Z.abs (Zpos dp)) with (Zpos dp) in Hpos.
    assert (2 ^ k <= Z.abs s)%Z by nia.
    destruct (Z.le_gt_cases k 52) as [|Hc]; [assumption|].
    assert (2 ^ 53 <= 2 ^ k)%Z by (apply Z.pow_le_mono_r; lia). lia. }
  destruct (Z.leb_spec 0 (k - 52)) as [He|He].
  - replace (k - 52)%Z with 0%Z by lia.
    rewrite Z.pow_0_r, !Z.mul_1_r, round_half_even_exact by lia. simpl. ring.
  - set (E := (2 ^ (- (k - 52)))%Z).
    assert (HE : (0 < E)%Z) by (apply Z.pow_pos_nonneg; lia).
    replace (s * Zpos dp * E)%Z with (s * E * Zpos dp)%Z by ring.
    rewrite round_half_even_exact by lia. simpl.
    rewrite Z2Pos.id by exact HE. reflexivity.
Qed.

Lemma py_int_exact (x : Q) (s : Z) :
  Qnum x = (s * Zpos (Qden x))%Z -> py_int x = s.
Proof. intros H. unfold py_int. rewrite H. apply Z.quot_mul. lia. Qed.

Lemma py_int_bounds (y : Q) :
  (0 <= y -> inject_Z (py_int y) <= y /\ y < inject_Z (py_int y) + 1) /\
  (y <= 0 -> inject_Z (py_int y) - 1 < y /\ y <= inject_Z (py_int y)).
Proof.
  destruct y as [a b]. unfold py_int. cbn [Qnum Qden]. split; intros Hy.
  - assert (0 <= a)%Z by (unfold Qle in Hy; simpl in Hy; lia).
    rewrite Z.quot_div_nonneg by lia.
    pose proof (Qfloor_le (a # b)) as F1. pose proof (Qlt_floor (a # b)) as F2.
    simpl in F1, F2. rewrite inject_Z_plus in F2. split; [exact F1|exact F2].
  - assert (a <= 0)%Z by (unfold Qle in Hy; simpl in Hy; lia).
    assert (Hq : (a ÷ Zpos b = - (- a / Zpos b))%Z).
    { rewrite <- Z.quot_div_nonneg by lia. rewrite Z.quot_opp_l by lia. ring. }
    rewrite Hq.
    pose proof (Qfloor_le (- a # b)) as F1. pose proof (Qlt_floor (- a # b)) as F2.
    simpl in F1, F2. rewrite inject_Z_plus in F2. rewrite inject_Z_opp.
    assert (Ho : (- a # b) == - (a # b)) by reflexivity.
    rewrite Ho in F1, F2. change (inject_Z 1) with 1 in F2. split; lra.
Qed.

Lemma Qabs_split (x : Q) : (Qabs x == x /\ 0 <= x) \/ (Qabs x == - x /\ x <= 0).
Proof.
  destruct (Qlt_le_dec x 0) as [H|H].
  - right. split; [apply Qabs_neg|]; lra.
  - left. split; [apply Qabs_pos|]; lra.
Qed.

Lemma EPOCH_US_val : EPOCH_US = 62135596800000000%Z.
Proof. reflexivity. Qed.

Lemma MAX_US_val : MAX_US = 315537897599999999%Z.
Proof. reflexivity. Qed.

Lemma ms_error (N : Z) :
  (- EPOCH_US <= N <= MAX_US - EPOCH_US)%Z ->
  (Z.abs (py_int (b64_round (b64_div N 1000000 * 1000)) - Z.quot N 1000) <= 1)%Z.
Proof.
  intros HN.
  pose proof (b64_div_err N 1000000) as F1.
  set (T := b64_div N 1000000) in *.
  pose proof (b64_round_err (T * 1000)) as F2.
  set (V := b64_round (T * 1000)) in *.
  change (inject_Z (2 ^ 53)) with (9007199254740992 # 1) in F1, F2.
  assert (HX : Qabs (N # 1000000) <= 260000000000).
  { rewrite EPOCH_US_val, MAX_US_val in HN.
    assert (HN' : (Z.abs N <= 260000000000000000)%Z) by lia.
    unfold Qle, Qabs. simpl. lia. }
  assert (Hrel : (N # 1000000) * 1000 == N # 1000) by (unfold Qeq; simpl; lia).
  assert (Hclose : - (1 # 16) < V - (N # 1000) /\ V - (N # 1000) < 1 # 16).
  { assert (E1 : Qabs (T - (N # 1000000)) <= 260000000000 # 9007199254740992) by lra.
    apply Qabs_Qle_condition in E1. apply Qabs_Qle_condition in HX.
    assert (E2 : Qabs (T * 1000) <= 270000000000000).
    { apply Qabs_Qle_condition. lra. }
    assert (E3 : Qabs (V - T * 1000) <= 270000000000000 # 9007199254740992) by lra.
    apply Qabs_Qle_condition in E3.
    clear F1 F2 E2. split; lra. }
  pose proof (py_int_bounds V) as [BV1 BV2].
  pose proof (py_int_bounds (N # 1000)) as [BX1 BX2].
  change (py_int (N # 1000)) with (Z.quot N 1000) in BX1, BX2.
  set (r := py_int V) in *. set (t := Z.quot N 1000) in *.
  apply Z.abs_le. split.
  - destruct (Z_le_gt_dec (-1) (r - t)) as [|Hc]; [assumption|exfalso].
    assert (Hq : inject_Z (r + 2) <= inject_Z t) by (rewrite <- Zle_Qle; lia).
    rewrite inject_Z_plus in Hq. change (inject_Z 2) with 2 in Hq.
    destruct (Qlt_le_dec V 0) as [SV|SV]; destruct (Qlt_le_dec (N # 1000) 0) as [SX|SX].
    all: try (apply Qlt_le_weak in SV); try (apply Qlt_le_weak in SX).
    all: try (specialize (BV1 SV)); try (specialize (BV2 SV));
         try (specialize (BX1 SX)); try (specialize (BX2 SX)).
    all: lra.
  - destruct (Z_le_gt_dec (r - t) 1) as [|Hc]; [assumption|exfalso].
    assert (Hq : inject_Z (t + 2) <= inject_Z r) by (rewrite <- Zle_Qle; lia).
    rewrite inject_Z_plus in Hq. change (inject_Z 2) with 2 in Hq.
    destruct (Qlt_le_dec V 0) as [SV|SV]; destruct (Qlt_le_dec (N # 1000) 0) as [SX|SX].
    all: try (apply Qlt_le_weak in SV); try (apply Qlt_le_weak in SX).
    all: try (specialize (BV1 SV)); try (specialize (BV2 SV));
         try (specialize (BX1 SX)); try (specialize (BX2 SX)).
    all: lra.
Qed.

Lemma astimezone_utc_ok (l off : Z) :
  (- us_per_day < off < us_per_day)%Z -> (0 <= l - off <= MAX_US)%Z ->
  astimezone_utc l off = Done (l - off)%Z.
Proof.
  intros Ho Hr. unfold astimezone_utc.
  destruct (Z.ltb_spec (- us_per_day) off); [|lia].
  destruct (Z.ltb_spec off us_per_day); [|lia]. cbn [andb negb].
  destruct (Z.leb_spec 0 (l - off)); [|lia].
  destruct (Z.leb_spec (l - off) MAX_US); [|lia]. reflexivity.
Qed.

Lemma astimezone_utc_done (l off u : Z) :
  astimezone_utc l off = Done u -> u = (l - off)%Z /\ (0 <= u <= MAX_US)%Z.
Proof.
  unfold astimezone_utc. destruct (negb _); [discriminate|].
  destruct (Z.leb_spec 0 (l - off)) as [H1|H1];
    destruct (Z.leb_spec (l - off) MAX_US) as [H2|H2];
    cbn [andb]; intros Hu; try discriminate.
  injection Hu as <-. split; [reflexivity|lia].
Qed.

(** For an aware datetime whose UTC time is a whole number [s] of seconds
    from the epoch, the result is exact: [s * 1000] milliseconds. *)
Theorem datetime_to_utc_timestamp_ms_whole_seconds (dt : datetime) (off s : Z) :
  tzinfo dt = Offset off ->
  (- us_per_day < off < us_per_day)%Z ->
  (0 <= local_us dt - off <= MAX_US)%Z ->
  (local_us dt - off - EPOCH_US = s * 1000000)%Z ->
  datetime_to_utc_timestamp_ms dt = Done (s * 1000)%Z.
Proof.
  intros Htz Ho Hr Hs. unfold datetime_to_utc_timestamp_ms. rewrite Htz.
  rewrite (astimezone_utc_ok _ _ Ho Hr). cbv beta iota. f_equal.
  unfold timestamp. rewrite Hs.
  rewrite EPOCH_US_val, MAX_US_val in *.
  assert (Hs53 : (Z.abs s < 2 ^ 53)%Z) by lia.
  pose proof (b64_div_exact s 1000000 Hs53) as HT.
  destruct (b64_div (s * Zpos 1000000) (Zpos 1000000)) as [tn td].
  cbn [Qnum Qden] in HT. subst tn.
  unfold b64_round. cbn [Qmult Qnum Qden].
  replace (s * Zpos td * 1000)%Z with (s * 1000 * Zpos (td * 1))%Z
    by (rewrite Pos.mul_1_r; ring).
  apply py_int_exact, b64_div_exact. lia.
Qed.

Lemma datetime_to_utc_timestamp_ms_whole_seconds_witness :
  tzinfo (mkDatetime (EPOCH_US + 1700000000 * 1000000 + 3600000000) (Offset 3600000000))
    = Offset 3600000000 /\
  (- us_per_day < 3600000000 < us_per_day)%Z /\
  (0 <= local_us (mkDatetime (EPOCH_US + 1700000000 * 1000000 + 3600000000)
                             (Offset 3600000000)) - 3600000000 <= MAX_US)%Z /\
  (local_us (mkDatetime (EPOCH_US + 1700000000 * 1000000 + 3600000000)
                        (Offset 3600000000)) - 3600000000 - EPOCH_US
   = 1700000000 * 1000000)%Z /\
  datetime_to_utc_timestamp_ms
    (mkDatetime (EPOCH_US + 1700000000 * 1000000 + 3600000000) (Offset 3600000000))
  = Done (1700000000 * 1000)%Z.
Proof.
  assert (H1 : tzinfo (mkDatetime (EPOCH_US + 1700000000 * 1000000 + 3600000000)
                                  (Offset 3600000000)) = Offset 3600000000)
    by reflexivity.
  assert (H2 : (- us_per_day < 3600000000 < us_per_day)%Z)
    by (unfold us_per_day; lia).
  assert (H3 : (0 <= local_us (mkDatetime (EPOCH_US + 1700000000 * 1000000 + 3600000000)
                 (Offset 3600000000)) - 3600000000 <= MAX_US)%Z)
    by (cbn [local_us]; rewrite EPOCH_US_val, MAX_US_val; lia).
  assert (H4 : (local_us (mkDatetime (EPOCH_US + 1700000000 * 1000000 + 3600000000)
                 (Offset 3600000000)) - 3600000000 - EPOCH_US = 1700000000 * 1000000)%Z)
    by (cbn [local_us]; ring).
  split; [exact H1|]. split; [exact H2|]. split; [exact H3|]. split; [exact H4|].
  exact (datetime_to_utc_timestamp_ms_whole_seconds _ _ _ H1 H2 H3 H4).
Defined.

(** Whenever it returns, the result is at most one millisecond away from
    the exact number of milliseconds between the epoch and the UTC time,
    truncated toward zero: the two roundings of the float computation can
    move it by one, e.g. 1970-01-01T00:00:01.001Z gives [1000]. *)
Theorem datetime_to_utc_timestamp_ms_within_one (dt : datetime) (r : Z) :
  datetime_to_utc_timestamp_ms dt = Done r ->
  exists off, tzinfo dt = Offset off /\
    (Z.abs (r - Z.quot (local_us dt - off - EPOCH_US) 1000) <= 1)%Z.
Proof.
  unfold datetime_to_utc_timestamp_ms. destruct (tzinfo dt) as [|off]; [discriminate|].
  destruct (astimezone_utc (local_us dt) off) as [u|e] eqn:Ha; cbv beta iota;
    intros H; [|discriminate].
  injection H as <-. destruct (astimezone_utc_done _ _ _ Ha) as [-> Hr].
  exists off. split; [reflexivity|].
  apply ms_error. lia.
Qed.

Lemma datetime_to_utc_timestamp_ms_within_one_witness :
  datetime_to_utc_timestamp_ms (mkDatetime (EPOCH_US + 1001000) (Offset 0)) = Done 1000%Z /\
  exists off, tzinfo (mkDatetime (EPOCH_US + 1001000) (Offset 0)) = Offset off /\
    (Z.abs (1000 - Z.quot (local_us (mkDatetime (EPOCH_US + 1001000) (Offset 0)) - off
                           - EPOCH_US) 1000) <= 1)%Z.
Proof.
  assert (H : datetime_to_utc_timestamp_ms (mkDatetime (EPOCH_US + 1001000) (Offset 0))
              = Done 1000%Z) by (vm_compute; reflexivity).
  split; [exact H|].
  exact (datetime_to_utc_timestamp_ms_within_one _ _ H).
Defined.
